(** * AttarVoice: the chat interface and the voice widget

    A shallow embedding of the two conversational front ends of the
    repository,

    - [frontend/src/components/ChatInterface.js] (class [ChatInterface]),
    - [widget/src/widget.js] (class [TravelVoiceWidget]),

    and the properties of their message logs, intent and error rule tables,
    call lifecycle and persistence.

    Conventions of the embedding.

    - A JavaScript string is a [string]: the sequence of its bytes (UTF-8).
      [trim] removes the white space of ECMAScript, inside ASCII and
      outside it; [toLowerCase] maps the ASCII letters, so it is exact on
      ASCII text.
    - An object method that reads and writes [this] is a computation of the
      monad [Js.M State]: it threads the object state and either completes
      normally or throws.  State written before a [throw] stays written, as
      in JavaScript.
    - The browser runs one handler at a time.  An [async] method is cut at
      its [await]: the part before it runs when the method is called, the
      part after it runs when the awaited promise settles.  Handlers that
      were started and not yet resumed are kept in the state.
    - The DOM is not modelled: rendering reads the state and writes
      nothing back.  Wall-clock readings are inputs of the handlers. *)

From Stdlib Require Import Ascii String List Bool Arith Lia.
From stdpp Require Import base option list strings gmap.

(** ** Completions and the state monad of a JavaScript object *)

Module Js.

(** A thrown value; the code only ever reads its [message] property, which
    may be absent. *)
Inductive JsError : Type :=
| Error (message : option string).

Definition message (e : JsError) : option string :=
  match e with Error m => m end.

Definition mkError (m : string) : JsError := Error (Some m).

Inductive Completion (A : Type) : Type :=
| Normal (a : A)
| Throw (e : JsError).
Arguments Normal {A} a.
Arguments Throw {A} e.

Definition M (S A : Type) : Type := S -> S * Completion A.

Definition ret {S A : Type} (a : A) : M S A := fun s => (s, Normal a).

Definition bind {S A B : Type} (m : M S A) (k : A -> M S B) : M S B :=
  fun s =>
    match m s with
    | (s', Normal a) => k a s'
    | (s', Throw e) => (s', Throw e)
    end.

Definition throw {S A : Type} (e : JsError) : M S A := fun s => (s, Throw e).

Definition get {S : Type} : M S S := fun s => (s, Normal s).

Definition modify {S : Type} (f : S -> S) : M S unit := fun s => (f s, Normal tt).

(** [try { body } catch (e) { handler e }]. *)
Definition tryCatch {S A : Type} (body : M S A) (handler : JsError -> M S A) : M S A :=
  fun s =>
    match body s with
    | (s', Normal a) => (s', Normal a)
    | (s', Throw e) => handler e s'
    end.

(** [try { body } catch (e) { handler e } finally { fin }]: [fin] runs in
    every case; the completion is that of the body or the handler unless
    [fin] itself throws. *)
Definition tryCatchFinally {S A : Type}
  (body : M S A) (handler : JsError -> M S A) (fin : M S unit) : M S A :=
  fun s =>
    match tryCatch body handler s with
    | (s', c) =>
        match fin s' with
        | (s'', Normal _) => (s'', c)
        | (s'', Throw e) => (s'', Throw e)
        end
    end.

(** Lifting a pure completion. *)
Definition lift {S A : Type} (c : Completion A) : M S A := fun s => (s, c).

(** The state a handler leaves behind, whatever its completion. *)
Definition exec {S A : Type} (m : M S A) (s : S) : S := fst (m s).

Definition completion {S A : Type} (m : M S A) (s : S) : Completion A := snd (m s).

End Js.

Notation "x <- m ;;; k" := (Js.bind m (fun x => k))
  (at level 100, m at next level, k at level 200, right associativity, only parsing).
Notation "m ;;; k" := (Js.bind m (fun _ => k))
  (at level 100, k at level 200, right associativity, only parsing).

(** ** Strings: the String.prototype methods the code calls *)

Module JsString.

(** Strings hold text as UTF-8: the bytes of a code point. *)
Definition utf8 (cp : N) : string :=
  if (cp <? 128)%N then String (ascii_of_N cp) EmptyString
  else if (cp <? 2048)%N then
    String (ascii_of_N (192 + cp / 64))
      (String (ascii_of_N (128 + cp mod 64)) EmptyString)
  else if (cp <? 65536)%N then
    String (ascii_of_N (224 + cp / 4096))
      (String (ascii_of_N (128 + (cp / 64) mod 64))
         (String (ascii_of_N (128 + cp mod 64)) EmptyString))
  else
    String (ascii_of_N (240 + cp / 262144))
      (String (ascii_of_N (128 + (cp / 4096) mod 64))
         (String (ascii_of_N (128 + (cp / 64) mod 64))
            (String (ascii_of_N (128 + cp mod 64)) EmptyString))).

Fixpoint encode (cps : list N) : string :=
  match cps with
  | [] => EmptyString
  | cp :: cps' => utf8 cp +:+ encode cps'
  end.

(** The white space [trim] removes, by code point: WhiteSpace and
    LineTerminator of ECMAScript.  Tab, line feed, vertical tab, form
    feed, carriage return, space; U+00A0 no-break space, U+1680, U+2000
    to U+200A, U+2028 line separator, U+2029 paragraph separator, U+202F,
    U+205F, U+3000 and U+FEFF. *)
Definition whiteSpaceCodePoints : list N :=
  [9; 10; 11; 12; 13; 32; 160; 5760;
   8192; 8193; 8194; 8195; 8196; 8197; 8198; 8199; 8200; 8201; 8202;
   8232; 8233; 8239; 8287; 12288; 65279]%N.

(** Their bytes: [map utf8 whiteSpaceCodePoints], of one to three bytes
    each. *)
Definition whiteSpaces : list string :=
  Eval vm_compute in map utf8 whiteSpaceCodePoints.

(** [w] is one white-space character. *)
Definition isWhiteSpace (w : string) : bool := existsb (String.eqb w) whiteSpaces.

(** [s.trimStart()]: the white-space characters [s] starts with are
    removed, whether they take one, two or three bytes. *)
Fixpoint trimStart (s : string) : string :=
  match s with
  | EmptyString => EmptyString
  | String a s1 =>
      if isWhiteSpace (String a EmptyString) then trimStart s1
      else
        match s1 with
        | EmptyString => s
        | String b s2 =>
            if isWhiteSpace (String a (String b EmptyString)) then trimStart s2
            else
              match s2 with
              | EmptyString => s
              | String c s3 =>
                  if isWhiteSpace (String a (String b (String c EmptyString)))
                  then trimStart s3
                  else s
              end
        end
  end.

(** [s] is made of white-space characters only (in particular, [s] is
    empty). *)
Fixpoint whiteSpaceOnly (s : string) : bool :=
  match s with
  | EmptyString => true
  | String a s1 =>
      if isWhiteSpace (String a EmptyString) then whiteSpaceOnly s1
      else
        match s1 with
        | EmptyString => false
        | String b s2 =>
            if isWhiteSpace (String a (String b EmptyString)) then whiteSpaceOnly s2
            else
              match s2 with
              | EmptyString => false
              | String c s3 =>
                  isWhiteSpace (String a (String b (String c EmptyString))) &&
                  whiteSpaceOnly s3
              end
        end
  end.

(** [s.trimEnd()]: the longest end of [s] made of white-space characters
    is removed. *)
Fixpoint trimEnd (s : string) : string :=
  match s with
  | EmptyString => EmptyString
  | String c s' => if whiteSpaceOnly s then EmptyString else String c (trimEnd s')
  end.

Definition trim (s : string) : string := trimEnd (trimStart s).

(** The texts that are empty or white space only: the UTF-8 text of a
    sequence of white-space code points. *)
Definition Blank (s : string) : Prop :=
  exists cps : list N,
    Forall (fun cp => In cp whiteSpaceCodePoints) cps /\ s = encode cps.

Definition toLowerChar (c : ascii) : ascii :=
  let n := nat_of_ascii c in
  if (65 <=? n) && (n <=? 90) then ascii_of_nat (n + 32) else c.

Fixpoint toLowerCase (s : string) : string :=
  match s with
  | EmptyString => EmptyString
  | String c s' => String (toLowerChar c) (toLowerCase s')
  end.

Fixpoint startsWith (s needle : string) : bool :=
  match needle, s with
  | EmptyString, _ => true
  | String _ _, EmptyString => false
  | String a needle', String b s' => Ascii.eqb a b && startsWith s' needle'
  end.

(** [s.includes(needle)]: [needle] occurs in [s] at some position. *)
Fixpoint includes (s needle : string) : bool :=
  startsWith s needle ||
  match s with
  | EmptyString => false
  | String _ s' => includes s' needle
  end.

(** A string used as a condition is true unless it is empty. *)
Definition truthy (s : string) : bool :=
  match s with EmptyString => false | String _ _ => true end.

(** The decimal numeral of a length, as a template literal prints it. *)
Definition digit (n : nat) : ascii := ascii_of_nat (48 + n).

Fixpoint decimalFuel (fuel n : nat) (acc : string) : string :=
  match fuel with
  | 0 => acc
  | S fuel' =>
      let acc' := String (digit (n mod 10)) acc in
      if n <? 10 then acc' else decimalFuel fuel' (n / 10) acc'
  end.

Definition decimal (n : nat) : string := decimalFuel (S n) n EmptyString.

(** [needle] occurs in [s]: the relation [includes] decides. *)
Definition Occurs (needle s : string) : Prop :=
  exists pre post : string, s = pre +:+ needle +:+ post.

End JsString.

(** ** JSON text: the part of JSON.stringify and JSON.parse the code uses

    [ChatInterface] stores an array of records whose fields are strings.
    [quote] is QuoteJSONString on byte strings; [readQuoted] reads a JSON
    string literal back. *)

Module Json.

Definition dquote : ascii := ascii_of_nat 34.
Definition backslash : ascii := ascii_of_nat 92.

Definition hexDigit (n : nat) : ascii :=
  if n <? 10 then ascii_of_nat (48 + n) else ascii_of_nat (87 + n).

Definition hexValue (c : ascii) : option nat :=
  let n := nat_of_ascii c in
  if (48 <=? n) && (n <=? 57) then Some (n - 48)
  else if (97 <=? n) && (n <=? 102) then Some (n - 87)
  else if (65 <=? n) && (n <=? 70) then Some (n - 55)
  else None.

(** One character of a string literal: the quote, the backslash and the
    control characters are escaped, everything else is copied. *)
Definition escape (c : ascii) : string :=
  let n := nat_of_ascii c in
  if n =? 34 then String backslash (String dquote EmptyString)
  else if n =? 92 then String backslash (String backslash EmptyString)
  else if n =? 8 then String backslash "b"
  else if n =? 9 then String backslash "t"
  else if n =? 10 then String backslash "n"
  else if n =? 12 then String backslash "f"
  else if n =? 13 then String backslash "r"
  else if n <? 32 then
    String backslash
      (String "u" (String "0" (String "0"
        (String (hexDigit (n / 16)) (String (hexDigit (n mod 16)) EmptyString)))))
  else String c EmptyString.

Fixpoint escapeAll (s : string) : string :=
  match s with
  | EmptyString => EmptyString
  | String c s' => escape c +:+ escapeAll s'
  end.

Definition quote (s : string) : string :=
  String dquote (escapeAll s +:+ String dquote EmptyString).

(** The character a two-character escape stands for. *)
Definition unescape (e : ascii) : option ascii :=
  let n := nat_of_ascii e in
  if n =? 34 then Some dquote
  else if n =? 92 then Some backslash
  else if n =? 47 then Some e
  else if n =? 98 then Some (ascii_of_nat 8)
  else if n =? 116 then Some (ascii_of_nat 9)
  else if n =? 110 then Some (ascii_of_nat 10)
  else if n =? 102 then Some (ascii_of_nat 12)
  else if n =? 114 then Some (ascii_of_nat 13)
  else None.

(** The byte a [\u00XY] escape stands for; code points above 255 are not
    bytes and are refused. *)
Definition unescapeHex (h1 h2 h3 h4 : ascii) : option ascii :=
  match hexValue h1, hexValue h2, hexValue h3, hexValue h4 with
  | Some 0, Some 0, Some x, Some y => Some (ascii_of_nat (16 * x + y))
  | _, _, _, _ => None
  end.

Definition prepend (c : ascii) (r : option (string * string)) : option (string * string) :=
  match r with
  | Some (t, rest) => Some (String c t, rest)
  | None => None
  end.

(** The characters of a string literal up to its closing quote, and the
    text after it. *)
Fixpoint readChars (s : string) : option (string * string) :=
  match s with
  | EmptyString => None
  | String c rest =>
      if Ascii.eqb c dquote then Some (EmptyString, rest)
      else if Ascii.eqb c backslash then
        match rest with
        | EmptyString => None
        | String e rest1 =>
            match unescape e with
            | Some d => prepend d (readChars rest1)
            | None =>
                if Ascii.eqb e "u" then
                  match rest1 with
                  | String h1 (String h2 (String h3 (String h4 rest2))) =>
                      match unescapeHex h1 h2 h3 h4 with
                      | Some d => prepend d (readChars rest2)
                      | None => None
                      end
                  | _ => None
                  end
                else None
            end
        end
      else prepend c (readChars rest)
  end.

Definition readQuoted (s : string) : option (string * string) :=
  match s with
  | String c rest => if Ascii.eqb c dquote then readChars rest else None
  | EmptyString => None
  end.

(** [expect p s]: [s] without its prefix [p], if it starts with [p]. *)
Fixpoint expect (p s : string) : option string :=
  match p, s with
  | EmptyString, _ => Some s
  | String _ _, EmptyString => None
  | String a p', String b s' => if Ascii.eqb a b then expect p' s' else None
  end.

(** A property name followed by its colon. *)
Definition key (k : string) : string := quote k +:+ ":".

End Json.

(** ** frontend/src/components/ChatInterface.js *)

Module ChatInterface.
Import Js JsString.

(** The [type] of a message is one of the strings ['user'] and ['ai']. *)
Inductive MessageType : Type := user | ai.

Definition typeString (t : MessageType) : string :=
  match t with user => "user" | ai => "ai" end.

Definition typeOfString (s : string) : option MessageType :=
  if String.eqb s "user" then Some user
  else if String.eqb s "ai" then Some ai
  else None.

(** [{ content, type, time }] *)
Record Message : Type := mkMessage {
  content : string;
  type : MessageType;
  time : string
}.

(** One record of [outbound_flights]; the fields are the texts the template
    literal prints for them. *)
Record Flight : Type := mkFlight {
  airline : string;
  flight_number : string;
  departure_time : string;
  price : string
}.

(** The body of a search response, at the shape of the collaborator's
    contract: an object whose [outbound_flights] is an array or is missing.
    [None] as a body is the JSON value [null]. *)
Record SearchData : Type := mkSearchData {
  outbound_flights : option (list Flight)
}.

Inductive Intent : Type :=
| FlightSearch | Greeting | HotelSearch | BookingHelp | Fallback.

Definition nl : string := String (ascii_of_nat 10) EmptyString.

Definition quoted (s : string) : string :=
  String Json.dquote (s +:+ String Json.dquote EmptyString).

Definition flightText (count : nat) (flight : Flight) : string :=
  "I found " +:+ decimal count +:+ " flights for you! " +:+ nl +:+
  "                " +:+ nl +:+
  "Top option: " +:+ airline flight +:+ " " +:+ flight_number flight +:+ nl +:+
  "Departure: " +:+ departure_time flight +:+ nl +:+
  "Price: ₹" +:+ price flight +:+ nl +:+
  nl +:+
  "Would you like to book this flight or see other options?".

Definition greetingText : string :=
  "Hello! 👋 Welcome to Travel.ai. I can help you find flights, hotels, and make bookings. What are you looking for today?".

Definition hotelText : string :=
  "I can help you find hotels! Where would you like to stay and for which dates?".

Definition bookingText : string :=
  "To make a booking, just tell me your preferences for flights or hotels and I'll help you complete the reservation!".

Definition fallbackText : string :=
  "I understand you're looking for travel options. Could you please specify what you need? For example: " +:+
  quoted "flights from Bengaluru to Dubai" +:+ ", or " +:+ quoted "hotels in Dubai" +:+ "?".

(** Reading a property of [null] throws a TypeError (with the wording of
    V8; the code never reads it). *)
Definition nullAccess : JsError :=
  mkError "Cannot read properties of null (reading 'outbound_flights')".

(** [generateAIResponse(userMessage, data)] *)
Definition generateAIResponse (userMessage : string) (data : option SearchData)
  : Completion string :=
  let lowerMessage := toLowerCase userMessage in
  let afterFlights :=
    if includes lowerMessage "hello" || includes lowerMessage "hi" then
      Normal greetingText
    else if includes lowerMessage "hotel" then
      Normal hotelText
    else if includes lowerMessage "booking" || includes lowerMessage "reserve" then
      Normal bookingText
    else
      Normal fallbackText in
  if includes lowerMessage "flight" || includes lowerMessage "book" then
    match data with
    | None => Throw nullAccess
    | Some d =>
        match outbound_flights d with
        | Some (flight :: others) =>
            Normal (flightText (length (flight :: others)) flight)
        | Some [] | None => afterFlights
        end
    end
  else afterFlights.

(** The branch of [generateAIResponse] that answers: the intent the reply
    is written for. *)
Definition classify (userMessage : string) (data : option SearchData)
  : Completion Intent :=
  let lowerMessage := toLowerCase userMessage in
  let afterFlights :=
    if includes lowerMessage "hello" || includes lowerMessage "hi" then
      Normal Greeting
    else if includes lowerMessage "hotel" then
      Normal HotelSearch
    else if includes lowerMessage "booking" || includes lowerMessage "reserve" then
      Normal BookingHelp
    else
      Normal Fallback in
  if includes lowerMessage "flight" || includes lowerMessage "book" then
    match data with
    | None => Throw nullAccess
    | Some d =>
        match outbound_flights d with
        | Some (flight :: others) => Normal FlightSearch
        | Some [] | None => afterFlights
        end
    end
  else afterFlights.

(** The reply text of each intent. *)
Definition replyText (i : Intent) (data : option SearchData) : string :=
  match i with
  | FlightSearch =>
      match data with
      | Some {| outbound_flights := Some (flight :: others) |} =>
          flightText (length (flight :: others)) flight
      | _ => EmptyString
      end
  | Greeting => greetingText
  | HotelSearch => hotelText
  | BookingHelp => bookingText
  | Fallback => fallbackText
  end.

(** *** JSON.stringify and JSON.parse on [this.messages] *)

Definition writeMessage (m : Message) : string :=
  "{" +:+ Json.key "content" +:+ Json.quote (content m) +:+
  "," +:+ Json.key "type" +:+ Json.quote (typeString (type m)) +:+
  "," +:+ Json.key "time" +:+ Json.quote (time m) +:+ "}".

Fixpoint writeTail (ms : list Message) : string :=
  match ms with
  | [] => "]"
  | m :: ms' => "," +:+ writeMessage m +:+ writeTail ms'
  end.

Definition stringify (ms : list Message) : string :=
  match ms with
  | [] => "[]"
  | m :: ms' => "[" +:+ writeMessage m +:+ writeTail ms'
  end.

Definition readField (k : string) (s : string) : option (string * string) :=
  s1 ← Json.expect (Json.key k) s; Json.readQuoted s1.

Definition readMessage (s : string) : option (Message * string) :=
  s1 ← Json.expect "{" s;
  '(c, s2) ← readField "content" s1;
  s3 ← Json.expect "," s2;
  '(t, s4) ← readField "type" s3;
  ty ← typeOfString t;
  s5 ← Json.expect "," s4;
  '(tm, s6) ← readField "time" s5;
  s7 ← Json.expect "}" s6;
  Some (mkMessage c ty tm, s7).

Fixpoint readTail (fuel : nat) (s : string) : option (list Message) :=
  match fuel with
  | 0 => None
  | S fuel' =>
      match s with
      | EmptyString => None
      | String c rest =>
          if Ascii.eqb c "]" then
            match rest with EmptyString => Some [] | String _ _ => None end
          else if Ascii.eqb c "," then
            '(m, s') ← readMessage rest;
            ms ← readTail fuel' s';
            Some (m :: ms)
          else None
      end
  end.

(** [parse] reads the arrays of message records that [stringify] writes;
    [None] stands for the SyntaxError of JSON.parse. *)
Definition parse (s : string) : option (list Message) :=
  match s with
  | String c rest =>
      if Ascii.eqb c "[" then
        match rest with
        | String d EmptyString => if Ascii.eqb d "]" then Some [] else None
        | _ =>
            '(m, s') ← readMessage rest;
            ms ← readTail (String.length s) s';
            Some (m :: ms)
        end
      else None
  | EmptyString => None
  end.

(** *** The object state *)

Record State : Type := mkState {
  messages : list Message;        (* this.messages *)
  isLoading : bool;               (* this.isLoading: the typing indicator *)
  localStorage : gmap string string;
  pending : list string           (* sendMessage calls suspended at [await
                                     fetch], with the [message] each holds *)
}.

Definition setMessages (ms : list Message) : M State unit :=
  modify (fun st => mkState ms (isLoading st) (localStorage st) (pending st)).

Definition setLoading (b : bool) : M State unit :=
  modify (fun st => mkState (messages st) b (localStorage st) (pending st)).

Definition setItem (k v : string) : M State unit :=
  modify (fun st =>
    mkState (messages st) (isLoading st) (<[k := v]> (localStorage st)) (pending st)).

(** [await fetch(...)]: the request is sent and the call waits for it. *)
Definition suspend (message : string) : M State unit :=
  modify (fun st =>
    mkState (messages st) (isLoading st) (localStorage st) (pending st ++ [message])).

(** The [i]-th waiting call is taken up again. *)
Definition resumed (i : nat) (st : State) : State :=
  mkState (messages st) (isLoading st) (localStorage st) (delete i (pending st)).

(** [saveMessages()] *)
Definition saveMessages : M State unit :=
  st <- get ;;;
  setItem "chatMessages" (stringify (messages st)).

(** [loadMessages()] *)
Definition loadMessages : M State unit :=
  st <- get ;;;
  match localStorage st !! "chatMessages" with
  | Some saved =>
      if truthy saved then
        match parse saved with
        | Some ms => setMessages ms
        | None => throw (mkError "Unexpected token in JSON")
        end
      else setMessages []
  | None => setMessages []
  end.

(** [addMessage(content, type)]; [now] is the reading of the clock. *)
Definition addMessage (content : string) (type : MessageType) (now : string)
  : M State unit :=
  st <- get ;;;
  setMessages (messages st ++ [mkMessage content type now]) ;;;
  saveMessages.

(** [clearChat()]; [confirmed] is the answer to the confirm dialog. *)
Definition clearChat (confirmed : bool) : M State unit :=
  if confirmed then setMessages [] ;;; saveMessages else ret tt.

(** What the search request settles to. *)
Inductive Body : Type :=
| InvalidJson (e : JsError)                 (* response.json() rejects *)
| JsonBody (data : option SearchData).

Inductive FetchOutcome : Type :=
| Rejected (e : JsError)                    (* fetch rejects: network error *)
| Response (ok : bool) (body : Body).

Definition awaitFetch (o : FetchOutcome) : M State (bool * Body) :=
  match o with
  | Rejected e => throw e
  | Response ok body => ret (ok, body)
  end.

Definition awaitJson (body : Body) : M State (option SearchData) :=
  match body with
  | InvalidJson e => throw e
  | JsonBody data => ret data
  end.

Definition apology : string := "Sorry, I encountered an error. Please try again.".

(** [sendMessage()] up to [await fetch(...)]. *)
Definition sendMessage_call (now : string) (inputValue : string) : M State unit :=
  let message := trim inputValue in
  if negb (truthy message) then ret tt
  else
    addMessage message user now ;;;
    setLoading true ;;;
    suspend message.

(** [sendMessage()] from the point where the request has settled. *)
Definition sendMessage_resume (now : string) (message : string) (o : FetchOutcome)
  : M State unit :=
  tryCatchFinally
    (response <- awaitFetch o ;;;
     (if negb (fst response) then throw (mkError "Failed to get response")
      else ret tt) ;;;
     data <- awaitJson (snd response) ;;;
     aiResponse <- lift (generateAIResponse message data) ;;;
     addMessage aiResponse ai now)
    (fun error => addMessage apology ai now)
    (setLoading false).

(** [new ChatInterface(container)]: [init()] loads the saved messages. *)
Definition construct (storage : gmap string string) : State * Completion unit :=
  loadMessages (mkState [] false storage []).

(** *** The page as a transition system *)

Inductive Event : Type :=
| SendMessage (now : string) (inputValue : string)
| FetchSettles (i : nat) (now : string) (o : FetchOutcome)
| ClearChat (confirmed : bool)
| TimePasses (ms : N).

(** No handler of [ChatInterface] is attached to a timer, and [fetch] is
    called without an abort signal: the passage of time alone runs no code
    that touches the state. *)
Definition step (ev : Event) (st : State) : State :=
  match ev with
  | SendMessage now inputValue => exec (sendMessage_call now inputValue) st
  | FetchSettles i now o =>
      match pending st !! i with
      | Some message => exec (sendMessage_resume now message o) (resumed i st)
      | None => st
      end
  | ClearChat confirmed => exec (clearChat confirmed) st
  | TimePasses _ => st
  end.

Definition run (evs : list Event) (st : State) : State :=
  fold_left (fun s ev => step ev s) evs st.

(** *** What [renderMessages()] shows *)

Inductive Bubble : Type :=
| MessageBubble (m : Message)
| TypingBubble.

Definition renderMessages (st : State) : list Bubble :=
  match messages st with
  | [] => []
  | _ :: _ =>
      map MessageBubble (messages st) ++
      (if isLoading st then [TypingBubble] else [])
  end.

Definition ephemeral (b : Bubble) : bool :=
  match b with TypingBubble => true | MessageBubble _ => false end.

(** The saved copy is up to date: a [ChatInterface] built on the storage
    of [st] starts with the messages of [st]. *)
Definition Saved (st : State) : Prop :=
  exists st' : State,
    construct (localStorage st) = (st', Normal tt) /\ messages st' = messages st.

End ChatInterface.

(** ** widget/src/widget.js *)

Module Widget.
Import Js JsString.

(** The [type] of a message is one of ['user'], ['ai'] and ['system']. *)
Inductive MessageType : Type := user | ai | system.

(** [{ text, type, time }] *)
Record Message : Type := mkMessage {
  text : string;
  type : MessageType;
  time : string
}.

(** A property of the configuration: a string or, the page being free to
    pass anything, a value of another kind.  Of such a value the code only
    evaluates [value.substring(0, 10) + '...']: [substring] is the error
    this raises (a TypeError for [undefined], [null], a number and the
    like), [None] for a value on which it raises none. *)
Inductive Value : Type :=
| Str (s : string)
| Other (substring : option JsError).

(** What [value.substring(0, 10) + '...'] throws, if it throws. *)
Definition substringThrows (v : Value) : option JsError :=
  match v with
  | Str _ => None
  | Other o => o
  end.

(** [this.config]; only the two Vapi keys are read after construction. *)
Record Config : Type := mkConfig {
  apiUrl : Value;
  vapiPublicKey : Value;
  vapiAssistantId : Value;
  position : Value;
  primaryColor : Value
}.

(** The argument of the constructor: every property may be missing. *)
Record ConfigArg : Type := mkConfigArg {
  argApiUrl : option Value;
  argVapiPublicKey : option Value;
  argVapiAssistantId : option Value;
  argPosition : option Value;
  argPrimaryColor : option Value
}.

(** The defaults, then [...config]: a property the argument has wins,
    whatever its value. *)
Definition configOf (c : ConfigArg) : Config :=
  mkConfig
    (default (Str "http://localhost:8080") (argApiUrl c))
    (default (Str "00ed1b9b-a752-4079-bc72-32986d840d52") (argVapiPublicKey c))
    (default (Str "e1c04a87-a8cf-4438-a91b-5888f69d1ef2") (argVapiAssistantId c))
    (default (Str "bottom-right") (argPosition c))
    (default (Str "#14B8A6") (argPrimaryColor c)).

(** The object [window.vapiSDK], if the page loaded it: which of the two
    methods the code tests for it has. *)
Record Sdk : Type := mkSdk {
  hasRun : bool;
  hasStop : bool
}.

(** A call made to the SDK. *)
Inductive SdkCall : Type :=
| Run (apiKey assistant : Value)
| Stop.

(** The fields [lastUserMessage] and [processingFunction] are set by the
    constructor and never read or written again; they are left out.
    [vapiSDK] is the global [window.vapiSDK]; [sdkCalls] lists the calls
    made to it, oldest first; [timers] counts the reply timers that
    [sendTextMessage] set and that have not fired yet. *)
Record State : Type := mkState {
  config : Config;
  isOpen : bool;
  isListening : bool;
  vapiClient : option Sdk;
  vapiReady : bool;
  messages : list Message;
  vapiSDK : option Sdk;
  sdkCalls : list SdkCall;
  timers : nat
}.

Definition setOpen (b : bool) : M State unit :=
  modify (fun st =>
    mkState (config st) b (isListening st) (vapiClient st) (vapiReady st)
            (messages st) (vapiSDK st) (sdkCalls st) (timers st)).

Definition setListening (b : bool) : M State unit :=
  modify (fun st =>
    mkState (config st) (isOpen st) b (vapiClient st) (vapiReady st)
            (messages st) (vapiSDK st) (sdkCalls st) (timers st)).

Definition setClient (c : option Sdk) : M State unit :=
  modify (fun st =>
    mkState (config st) (isOpen st) (isListening st) c (vapiReady st)
            (messages st) (vapiSDK st) (sdkCalls st) (timers st)).

Definition setReady (b : bool) : M State unit :=
  modify (fun st =>
    mkState (config st) (isOpen st) (isListening st) (vapiClient st) b
            (messages st) (vapiSDK st) (sdkCalls st) (timers st)).

Definition setMessages (ms : list Message) : M State unit :=
  modify (fun st =>
    mkState (config st) (isOpen st) (isListening st) (vapiClient st) (vapiReady st)
            ms (vapiSDK st) (sdkCalls st) (timers st)).

Definition logCall (c : SdkCall) : M State unit :=
  modify (fun st =>
    mkState (config st) (isOpen st) (isListening st) (vapiClient st) (vapiReady st)
            (messages st) (vapiSDK st) (sdkCalls st ++ [c]) (timers st)).

Definition setTimers (n : nat) : M State unit :=
  modify (fun st =>
    mkState (config st) (isOpen st) (isListening st) (vapiClient st) (vapiReady st)
            (messages st) (vapiSDK st) (sdkCalls st) n).

(** [addMessage(text, type)]; [now] is the reading of the clock. *)
Definition addMessage (text : string) (type : MessageType) (now : string)
  : M State unit :=
  st <- get ;;;
  setMessages (messages st ++ [mkMessage text type now]).

(** [showError(message)] *)
Definition showError (message : string) (now : string) : M State unit :=
  addMessage ("⚠️ " +:+ message) system now.

(** The outcomes of the error rule table. *)
Inductive ErrorKind : Type :=
| PermissionDenied | InsecureTransport | AssistantMisconfigured | Unknown.

Definition permissionText : string :=
  "Microphone permission denied. Please allow microphone access and try again.".
Definition httpsText : string :=
  "Voice calls require HTTPS. Please use a secure connection.".
Definition assistantText : string :=
  "Voice assistant not configured. Please check your settings.".
Definition failedText : string :=
  "Failed to start voice call. Please try again.".

(** [getErrorMessage(error)] *)
Definition getErrorMessage (error : JsError) : string :=
  match message error with
  | Some m =>
      if truthy m then
        if includes m "permission" || includes m "Permission" then permissionText
        else if includes m "secure" || includes m "HTTPS" then httpsText
        else if includes m "assistant" then assistantText
        else "Error: " +:+ m
      else failedText
  | None => failedText
  end.

(** The rule of [getErrorMessage] that fires, as an error kind; the two
    texts that name no cause are both [Unknown]. *)
Definition errorKind (error : JsError) : ErrorKind :=
  match message error with
  | Some m =>
      if truthy m then
        if includes m "permission" || includes m "Permission" then PermissionDenied
        else if includes m "secure" || includes m "HTTPS" then InsecureTransport
        else if includes m "assistant" then AssistantMisconfigured
        else Unknown
      else Unknown
  | None => Unknown
  end.

(** The errors the widget throws, and the TypeErrors of the engine (with
    the wording of V8; nothing proved below depends on it). *)
Definition notLoadedProperly : JsError := mkError "Vapi SDK not properly loaded".
Definition notLoaded : JsError := mkError "Vapi SDK not loaded".
Definition notAFunction : JsError := mkError "window.vapiSDK.run is not a function".
Definition undefinedAccess : JsError :=
  mkError "Cannot read properties of undefined (reading 'run')".
Definition undefinedText : JsError :=
  mkError "Cannot read properties of undefined (reading 'text')".

(** [this.config.vapiPublicKey.substring(0, 10) + '...'], evaluated for
    the console by [initVapi] and by [startVoiceCall]. *)
Definition keyPrefix : M State unit :=
  st <- get ;;;
  match substringThrows (vapiPublicKey (config st)) with
  | Some e => throw e
  | None => ret tt
  end.

(** [initVapi()] *)
Definition initVapi : M State unit :=
  tryCatch
    (st <- get ;;;
     match vapiSDK st with
     | None => throw notLoaded
     | Some sdk =>
         setClient (Some sdk) ;;;
         setReady true ;;;
         keyPrefix
     end)
    (fun error => setReady false ;;; throw error).

(** [waitForVapiAndInit()]; it does not wait: the only [await] is on
    [initVapi()], whose effects are immediate. *)
Definition waitForVapiAndInit (now : string) : M State unit :=
  tryCatch
    (st <- get ;;;
     match vapiSDK st with
     | Some sdk => if hasRun sdk then initVapi else throw notLoadedProperly
     | None => throw notLoadedProperly
     end)
    (fun error => showError "Voice service unavailable. Please refresh the page." now).

(** [new TravelVoiceWidget(config)] on a page whose [window.vapiSDK] is
    [sdk]. *)
Definition construct (c : ConfigArg) (sdk : option Sdk) (now : string) : State :=
  exec (waitForVapiAndInit now)
       (mkState (configOf c) false false None false [] sdk [] 0).

Definition welcomeReady : string :=
  "Hi! I'm your Travel.ai assistant. I can help you search for flights, check flight status, and find airports. Just ask me anything!".
Definition welcomeLoading : string :=
  "Hi! Voice service is loading. Please wait a moment...".

(** [togglePanel()] *)
Definition togglePanel (now : string) : M State unit :=
  st <- get ;;;
  setOpen (negb (isOpen st)) ;;;
  st' <- get ;;;
  if isOpen st' && (length (messages st') =? 0) then
    addMessage (if vapiReady st' then welcomeReady else welcomeLoading) ai now
  else ret tt.

(** [window.vapiSDK.run({ apiKey, assistant })]; [outcome] is what the SDK
    throws, if it throws. *)
Definition sdkRun (outcome : option JsError) : M State unit :=
  st <- get ;;;
  match vapiSDK st with
  | None => throw undefinedAccess
  | Some sdk =>
      if hasRun sdk then
        logCall (Run (vapiPublicKey (config st)) (vapiAssistantId (config st))) ;;;
        match outcome with
        | Some e => throw e
        | None => ret tt
        end
      else throw notAFunction
  end.

Definition notReadyText : string :=
  "Voice service is still loading. Please wait a moment and try again.".
Definition startedText : string :=
  "🎙️ Voice call started - speak now! The AI will respond with voice.".

(** The guard of [startVoiceCall]: [this.vapiReady && this.vapiClient]. *)
Definition ready (st : State) : bool :=
  vapiReady st && bool_decide (is_Some (vapiClient st)).

(** [startVoiceCall()] *)
Definition startVoiceCall (now : string) (runOutcome : option JsError) : M State unit :=
  st <- get ;;;
  if negb (ready st) then showError notReadyText now
  else
    tryCatch
      (setListening true ;;;
       keyPrefix ;;;
       sdkRun runOutcome ;;;
       addMessage startedText system now)
      (fun error =>
         showError (getErrorMessage error) now ;;;
         setListening false).

Definition callEndedText : string := "Call ended. How else can I help you?".

(** [onCallStart()]; no code of the widget calls it. *)
Definition onCallStart : M State unit := setListening true.

(** [onCallEnd()] *)
Definition onCallEnd (now : string) : M State unit :=
  setListening false ;;;
  addMessage callEndedText system now.

(** [window.vapiSDK.stop()] behind its guard
    [window.vapiSDK && window.vapiSDK.stop]. *)
Definition sdkStop (outcome : option JsError) : M State unit :=
  st <- get ;;;
  match vapiSDK st with
  | Some sdk =>
      if hasStop sdk then
        logCall Stop ;;;
        match outcome with
        | Some e => throw e
        | None => ret tt
        end
      else ret tt
  | None => ret tt
  end.

(** [endVoiceCall()] *)
Definition endVoiceCall (now : string) (stopOutcome : option JsError) : M State unit :=
  st <- get ;;;
  if isListening st then
    tryCatch (sdkStop stopOutcome) (fun error => ret tt) ;;;
    onCallEnd now
  else ret tt.

(** [clearMessages()] *)
Definition clearMessages : M State unit := setMessages [].

Definition typingText : string := "...".
Definition receivedText : string :=
  "I received your message. How can I help you with your travel plans?".

(** [sendTextMessage()]; [input] is the value of the text field, [None]
    when the field is not in the page. *)
Definition sendTextMessage (now : string) (input : option string) : M State unit :=
  match input with
  | None => ret tt
  | Some value =>
      if negb (truthy (trim value)) then ret tt
      else
        let message := trim value in
        addMessage message user now ;;;
        addMessage typingText ai now ;;;
        st <- get ;;;
        setTimers (S (timers st))
  end.

(** The callback [sendTextMessage] hands to [setTimeout]. *)
Definition replyTimer (now : string) : M State unit :=
  st <- get ;;;
  match last (messages st) with
  | None => throw undefinedText
  | Some m =>
      (if String.eqb (text m) typingText
       then setMessages (removelast (messages st))
       else ret tt) ;;;
      addMessage receivedText ai now
  end.

(** *** The page as a transition system *)

Inductive Event : Type :=
| TogglePanel (now : string)
| StartVoiceCall (now : string) (runOutcome : option JsError)
| EndVoiceCall (now : string) (stopOutcome : option JsError)
| ClearMessages
| SendTextMessage (now : string) (input : option string)
| ReplyTimerFires (now : string).

(** All reply timers have the same delay, so they fire in the order they
    were set; every one runs the same callback. *)
Definition step (ev : Event) (st : State) : State :=
  match ev with
  | TogglePanel now => exec (togglePanel now) st
  | StartVoiceCall now o => exec (startVoiceCall now o) st
  | EndVoiceCall now o => exec (endVoiceCall now o) st
  | ClearMessages => exec clearMessages st
  | SendTextMessage now input => exec (sendTextMessage now input) st
  | ReplyTimerFires now =>
      match timers st with
      | 0 => st
      | S n => exec (setTimers n ;;; replyTimer now) st
      end
  end.

Definition run (evs : list Event) (st : State) : State :=
  fold_left (fun s ev => step ev s) evs st.

(** The states a widget can be in. *)
Definition Reachable (st : State) : Prop :=
  exists (c : ConfigArg) (sdk : option Sdk) (now : string) (evs : list Event),
    st = run evs (construct c sdk now).

(** What holds of the flags in every state of a widget: once ready, the
    client is the SDK object of the page and that object has [run]; a
    widget only listens when it is ready; and it is only ready with a
    public key whose prefix can be taken. *)
Definition Consistent (st : State) : Prop :=
  (vapiReady st = true ->
   exists sdk, vapiSDK st = Some sdk /\ hasRun sdk = true /\ vapiClient st = Some sdk) /\
  (isListening st = true -> vapiReady st = true) /\
  (vapiReady st = true -> substringThrows (vapiPublicKey (config st)) = None).

(** The SDK object of the page has the [stop] method of its contract. *)
Definition exposesStop (st : State) : bool :=
  match vapiSDK st with
  | Some sdk => hasStop sdk
  | None => false
  end.

(** The call lifecycle the flags encode. *)
Inductive SessionState : Type := NOT_READY | READY | LISTENING.

Definition sessionState (st : State) : SessionState :=
  if isListening st then LISTENING
  else if ready st then READY
  else NOT_READY.

(** The typing indicator: the message [sendTextMessage] shows while the
    reply is pending. *)
Definition isTyping (m : Message) : bool :=
  String.eqb (text m) typingText &&
  match type m with ai => true | _ => false end.

Definition typingCount (ms : list Message) : nat :=
  length (filter (fun m => isTyping m = true) ms).

End Widget.

(** ** Rule tables

    Both classifiers of the code are chains of conditionals on substring
    tests.  [firstMatch] is the same policy as data: the rows are tried in
    order and the first row one of whose keywords occurs in the text gives
    the result. *)

Module Rules.
Import JsString.

Fixpoint firstMatch {A : Type} (table : list (list string * A)) (default : A)
  (s : string) : A :=
  match table with
  | [] => default
  | (keywords, a) :: rest =>
      if existsb (includes s) keywords then a else firstMatch rest default s
  end.

(** The rows of [generateAIResponse], in the order of its conditionals. *)
Definition intentRules : list (list string * ChatInterface.Intent) :=
  [ (["flight"; "book"], ChatInterface.FlightSearch);
    (["hello"; "hi"], ChatInterface.Greeting);
    (["hotel"], ChatInterface.HotelSearch);
    (["booking"; "reserve"], ChatInterface.BookingHelp) ].

(** The rows of [getErrorMessage], in the order of its conditionals. *)
Definition errorRules : list (list string * Widget.ErrorKind) :=
  [ (["permission"; "Permission"], Widget.PermissionDenied);
    (["secure"; "HTTPS"], Widget.InsecureTransport);
    (["assistant"], Widget.AssistantMisconfigured) ].

(** The search data holds at least one flight. *)
Definition hasFlights (data : option ChatInterface.SearchData) : bool :=
  match data with
  | Some d =>
      match ChatInterface.outbound_flights d with
      | Some (_ :: _) => true
      | Some [] | None => false
      end
  | None => false
  end.

End Rules.

(** ** The behaviour the specification words

    Definitions written from the specification, to compare the code
    with. *)

Module Spec.
Import JsString.

(** Section 4.3: the utterance alone decides the intent, by the ordered
    table, whatever the search returned. *)
Definition classifyIntent (utterance : string) : ChatInterface.Intent :=
  Rules.firstMatch Rules.intentRules ChatInterface.Fallback (toLowerCase utterance).

(** Section 4.5: "permission", then "secure" or "https", then "assistant",
    otherwise Unknown. *)
Definition errorTable : list (list string * Widget.ErrorKind) :=
  [ (["permission"], Widget.PermissionDenied);
    (["secure"; "https"], Widget.InsecureTransport);
    (["assistant"], Widget.AssistantMisconfigured) ].

Definition classifyError (raw : string) : Widget.ErrorKind :=
  Rules.firstMatch errorTable Widget.Unknown raw.

(** Section 5: when the timeout of a search call expires, the ephemeral
    entry is gone and an apology of the assistant is the last message. *)
Definition timedOut (st : ChatInterface.State) : bool :=
  negb (ChatInterface.isLoading st) &&
  match last (ChatInterface.messages st) with
  | Some m => String.eqb (ChatInterface.content m) ChatInterface.apology
  | None => false
  end.

End Spec.

(** ** Schedules of the text pipeline *)

Module Schedule.
Import Js JsString.


(** The search collaborator fails: the network fails, the response is
    not ok, or its body is not JSON. *)
Definition collaboratorFails (o : ChatInterface.FetchOutcome) : bool :=
  match o with
  | ChatInterface.Rejected _ => true
  | ChatInterface.Response ok body =>
      negb ok ||
      match body with
      | ChatInterface.InvalidJson _ => true
      | ChatInterface.JsonBody _ => false
      end
  end.

(** The content a call appends when its request has settled. *)
Definition replyContent (message : string) (o : ChatInterface.FetchOutcome) : string :=
  match o with
  | ChatInterface.Response true (ChatInterface.JsonBody data) =>
      match ChatInterface.generateAIResponse message data with
      | Normal aiResponse => aiResponse
      | Throw _ => ChatInterface.apology
      end
  | _ => ChatInterface.apology
  end.







End Schedule.

(** ** States and outcomes used as examples *)

Module Examples.
Import Js.

(** A page whose SDK object has both methods, and the widget built on it
    with the default configuration. *)
Definition sdk : Widget.Sdk := Widget.mkSdk true true.

Definition widget : Widget.State :=
  Widget.construct (Widget.mkConfigArg None None None None None) (Some sdk) "10:00 AM".

(** The same widget during a voice call. *)
Definition listening : Widget.State :=
  Widget.run [Widget.StartVoiceCall "10:01 AM" None] widget.

(** A chat interface with nothing saved. *)
Definition chat : ChatInterface.State := ChatInterface.mkState [] false ∅ [].

Definition noFlights : ChatInterface.FetchOutcome :=
  ChatInterface.Response true
    (ChatInterface.JsonBody (Some (ChatInterface.mkSearchData (Some [])))).

End Examples.

(** ** Counts over the log and the calls *)

Module Measures.

(** The page has an SDK object with a [run] method: the test of
    [waitForVapiAndInit]. *)
Definition usable (sdk : option Widget.Sdk) : bool :=
  match sdk with
  | Some s => Widget.hasRun s
  | None => false
  end.

Definition isRun (c : Widget.SdkCall) : bool :=
  match c with Widget.Run _ _ => true | Widget.Stop => false end.

(** How many times [run] and [stop] were called. *)
Definition runCount (calls : list Widget.SdkCall) : nat :=
  length (filter (fun c => isRun c = true) calls).

Definition stopCount (calls : list Widget.SdkCall) : nat :=
  length (filter (fun c => isRun c = false) calls).

(** The events that touch neither the call nor the SDK. *)
Definition quiet (ev : Widget.Event) : bool :=
  match ev with
  | Widget.StartVoiceCall _ _ | Widget.EndVoiceCall _ _ => false
  | _ => true
  end.

(** The prefix of the public key can be taken: it is a string, or a value
    of another kind on which [substring(0, 10)] does not throw. *)
Definition prefixable (c : Widget.Config) : bool :=
  match Widget.substringThrows (Widget.vapiPublicKey c) with
  | None => true
  | Some _ => false
  end.

(** The calls add up: counting the call under way, [stop] was called no
    more often than [run]; and [run] always got the configured keys. *)
Definition Accounted (st : Widget.State) : Prop :=
  stopCount (Widget.sdkCalls st) + (if Widget.isListening st then 1 else 0) <=
    runCount (Widget.sdkCalls st) /\
  Forall (fun call =>
            isRun call = true ->
            call = Widget.Run (Widget.vapiPublicKey (Widget.config st))
                              (Widget.vapiAssistantId (Widget.config st)))
         (Widget.sdkCalls st).

End Measures.

Module Tally.

Definition fromUser (m : ChatInterface.Message) : bool :=
  match ChatInterface.type m with
  | ChatInterface.user => true
  | ChatInterface.ai => false
  end.

(** How many messages of the user and of the assistant a log holds. *)
Definition userCount (ms : list ChatInterface.Message) : nat :=
  length (filter (fun m => fromUser m = true) ms).

Definition aiCount (ms : list ChatInterface.Message) : nat :=
  length (filter (fun m => fromUser m = false) ms).

End Tally.

(** ** widget/src/widget.js: what the panel shows

    The methods of the widget once more, this time with their writes to
    the element [widgetPanelBody].  The element holds one of three
    templates; [showMessages] writes the whole log into the third. *)

Module Panel.
Import Js JsString.

Inductive Body : Type :=
| InitialState                                  (* getInitialStateHTML() *)
| ListeningState                                (* getListeningStateHTML() *)
| MessageList (shown : list Widget.Message).    (* showMessages() *)

Record State : Type := mkState {
  widget : Widget.State;
  body : Body
}.

(** A method of the widget that writes nothing to the panel. *)
Definition onWidget {A : Type} (m : M Widget.State A) : M State A :=
  fun s =>
    match m (widget s) with
    | (w, c) => (mkState w (body s), c)
    end.

(** [updatePanelBody(html)]; the element is created by the constructor. *)
Definition updatePanelBody (b : Body) : M State unit :=
  modify (fun s => mkState (widget s) b).

(** [showMessages()] *)
Definition showMessages : M State unit :=
  s <- get ;;;
  updatePanelBody (MessageList (Widget.messages (widget s))).

Definition showMessagesIfOpen : M State unit :=
  s <- get ;;;
  if Widget.isOpen (widget s) then showMessages else ret tt.

(** [addMessage(text, type)] *)
Definition addMessage (text : string) (type : Widget.MessageType) (now : string)
  : M State unit :=
  onWidget (Widget.addMessage text type now) ;;;
  showMessagesIfOpen.

(** [showError(message)] *)
Definition showError (message : string) (now : string) : M State unit :=
  addMessage ("⚠️ " +:+ message) Widget.system now ;;;
  showMessagesIfOpen.

(** [togglePanel()] *)
Definition togglePanel (now : string) : M State unit :=
  s <- get ;;;
  onWidget (Widget.setOpen (negb (Widget.isOpen (widget s)))) ;;;
  s' <- get ;;;
  if Widget.isOpen (widget s') && (length (Widget.messages (widget s')) =? 0) then
    addMessage
      (if Widget.vapiReady (widget s') then Widget.welcomeReady else Widget.welcomeLoading)
      Widget.ai now
  else ret tt.

(** [startVoiceCall()] *)
Definition startVoiceCall (now : string) (runOutcome : option JsError) : M State unit :=
  s <- get ;;;
  if negb (Widget.ready (widget s)) then showError Widget.notReadyText now
  else
    tryCatch
      (onWidget (Widget.setListening true) ;;;
       updatePanelBody ListeningState ;;;
       onWidget Widget.keyPrefix ;;;
       onWidget (Widget.sdkRun runOutcome) ;;;
       addMessage Widget.startedText Widget.system now)
      (fun error =>
         showError (Widget.getErrorMessage error) now ;;;
         onWidget (Widget.setListening false) ;;;
         showMessages).

(** [onCallEnd()] *)
Definition onCallEnd (now : string) : M State unit :=
  onWidget (Widget.setListening false) ;;;
  showMessages ;;;
  addMessage Widget.callEndedText Widget.system now.

(** [endVoiceCall()] *)
Definition endVoiceCall (now : string) (stopOutcome : option JsError) : M State unit :=
  s <- get ;;;
  if Widget.isListening (widget s) then
    tryCatch (onWidget (Widget.sdkStop stopOutcome)) (fun error => ret tt) ;;;
    onCallEnd now
  else ret tt.

(** [clearMessages()] *)
Definition clearMessages : M State unit :=
  onWidget (Widget.setMessages []) ;;;
  updatePanelBody InitialState.

(** [sendTextMessage()] *)
Definition sendTextMessage (now : string) (input : option string) : M State unit :=
  match input with
  | None => ret tt
  | Some value =>
      if negb (truthy (trim value)) then ret tt
      else
        let message := trim value in
        addMessage message Widget.user now ;;;
        addMessage Widget.typingText Widget.ai now ;;;
        s <- get ;;;
        onWidget (Widget.setTimers (S (Widget.timers (widget s))))
  end.

(** The callback [sendTextMessage] hands to [setTimeout]. *)
Definition replyTimer (now : string) : M State unit :=
  s <- get ;;;
  match last (Widget.messages (widget s)) with
  | None => throw Widget.undefinedText
  | Some m =>
      (if String.eqb (Widget.text m) Widget.typingText
       then onWidget (Widget.setMessages (removelast (Widget.messages (widget s))))
       else ret tt) ;;;
      addMessage Widget.receivedText Widget.ai now
  end.

(** [new TravelVoiceWidget(config)]: [getPanelHTML()] puts the initial
    template in the body; the panel is closed, so the error message of a
    failed start-up is not rendered. *)
Definition construct (c : Widget.ConfigArg) (sdk : option Widget.Sdk) (now : string)
  : State :=
  mkState (Widget.construct c sdk now) InitialState.

Definition step (ev : Widget.Event) (s : State) : State :=
  match ev with
  | Widget.TogglePanel now => exec (togglePanel now) s
  | Widget.StartVoiceCall now o => exec (startVoiceCall now o) s
  | Widget.EndVoiceCall now o => exec (endVoiceCall now o) s
  | Widget.ClearMessages => exec clearMessages s
  | Widget.SendTextMessage now input => exec (sendTextMessage now input) s
  | Widget.ReplyTimerFires now =>
      match Widget.timers (widget s) with
      | 0 => s
      | S n => exec (onWidget (Widget.setTimers n) ;;; replyTimer now) s
      end
  end.

Definition run (evs : list Widget.Event) (s : State) : State :=
  fold_left (fun s ev => step ev s) evs s.

(** The body shows the log as it is now: the whole log, or the initial
    template when there is nothing to show. *)
Definition UpToDate (s : State) : Prop :=
  body s = MessageList (Widget.messages (widget s)) \/
  (body s = InitialState /\ Widget.messages (widget s) = []).

End Panel.

(** ** frontend/src/components/ChatInterface.js: what the container shows

    The methods once more, with their calls of [render()].  [render]
    writes the header, the input area and, between them, what
    [renderMessages()] returns. *)

Module ChatView.
Import Js JsString.

Record State : Type := mkState {
  chat : ChatInterface.State;
  rendered : option (list ChatInterface.Bubble)   (* [None]: not rendered yet *)
}.

Definition onChat {A : Type} (m : M ChatInterface.State A) : M State A :=
  fun s =>
    match m (chat s) with
    | (c, r) => (mkState c (rendered s), r)
    end.

(** [render()] *)
Definition render : M State unit :=
  modify (fun s => mkState (chat s) (Some (ChatInterface.renderMessages (chat s)))).

(** [sendMessage()] up to [await fetch(...)]. *)
Definition sendMessage_call (now : string) (inputValue : string) : M State unit :=
  let message := trim inputValue in
  if negb (truthy message) then ret tt
  else
    onChat (ChatInterface.addMessage message ChatInterface.user now) ;;;
    onChat (ChatInterface.setLoading true) ;;;
    render ;;;
    onChat (ChatInterface.suspend message).

(** [sendMessage()] from the point where the request has settled. *)
Definition sendMessage_resume (now : string) (message : string)
  (o : ChatInterface.FetchOutcome) : M State unit :=
  tryCatchFinally
    (response <- onChat (ChatInterface.awaitFetch o) ;;;
     (if negb (fst response) then throw (mkError "Failed to get response")
      else ret tt) ;;;
     data <- onChat (ChatInterface.awaitJson (snd response)) ;;;
     aiResponse <- lift (ChatInterface.generateAIResponse message data) ;;;
     onChat (ChatInterface.addMessage aiResponse ChatInterface.ai now))
    (fun error => onChat (ChatInterface.addMessage ChatInterface.apology ChatInterface.ai now))
    (onChat (ChatInterface.setLoading false) ;;; render).

(** [clearChat()] *)
Definition clearChat (confirmed : bool) : M State unit :=
  if confirmed then
    onChat (ChatInterface.setMessages []) ;;;
    onChat ChatInterface.saveMessages ;;;
    render
  else ret tt.

(** [new ChatInterface(container)]: [init()] does not render. *)
Definition construct (storage : gmap string string) : State * Completion unit :=
  match ChatInterface.construct storage with
  | (c, r) => (mkState c None, r)
  end.

Definition step (ev : ChatInterface.Event) (s : State) : State :=
  match ev with
  | ChatInterface.SendMessage now inputValue => exec (sendMessage_call now inputValue) s
  | ChatInterface.FetchSettles i now o =>
      match ChatInterface.pending (chat s) !! i with
      | Some message =>
          exec (sendMessage_resume now message o)
               (mkState (ChatInterface.resumed i (chat s)) (rendered s))
      | None => s
      end
  | ChatInterface.ClearChat confirmed => exec (clearChat confirmed) s
  | ChatInterface.TimePasses _ => s
  end.

Definition run (evs : list ChatInterface.Event) (s : State) : State :=
  fold_left (fun s ev => step ev s) evs s.

(** The container shows the conversation as it is now. *)
Definition Current (s : State) : Prop :=
  rendered s = Some (ChatInterface.renderMessages (chat s)).

End ChatView.

(** ** More states used as examples *)

Module MoreExamples.

(** A page without the SDK, and the widget built on it. *)
Definition bare : Widget.State :=
  Widget.construct (Widget.mkConfigArg None None None None None) None "10:00 AM".

(** The widget of [Examples] with its panel, opened. *)
Definition openPanel : Panel.State :=
  Panel.run [Widget.TogglePanel "10:00 AM"]
    (Panel.construct (Widget.mkConfigArg None None None None None)
       (Some Examples.sdk) "10:00 AM").

(** A search that found one flight. *)
Definition emirates : ChatInterface.Flight :=
  ChatInterface.mkFlight "Emirates" "EK501" "10:40" "18000".

(** A chat interface with two requests under way. *)
Definition twoPending : ChatInterface.State :=
  ChatInterface.run
    [ChatInterface.SendMessage "10:00 AM" "hello";
     ChatInterface.SendMessage "10:00 AM" "need a hotel in Riyadh"]
    Examples.chat.

(** A chat interface with nothing saved, cleared once and so rendered. *)
Definition view : ChatView.State :=
  ChatView.run [ChatInterface.ClearChat true] (fst (ChatView.construct ∅)).

(** A page whose SDK object has [run] and no [stop], and the widget built
    on it, during a voice call. *)
Definition unstoppable : Widget.State :=
  Widget.run [Widget.StartVoiceCall "10:01 AM" None]
    (Widget.construct (Widget.mkConfigArg None None None None None)
       (Some (Widget.mkSdk true false)) "10:00 AM").

(** A configuration whose public key is a number. *)
Definition numericKey : Widget.ConfigArg :=
  Widget.mkConfigArg None
    (Some (Widget.Other (Some (Js.mkError "this.config.vapiPublicKey.substring is not a function"))))
    None None None.

End MoreExamples.


(** * Properties *)

(** ** Strings *)

Lemma append_cons (c : ascii) (s t : string) :
  String c s +:+ t = String c (s +:+ t).
Proof. reflexivity. Qed.

Lemma append_nil_r (s : string) : s +:+ EmptyString = s.
Proof.
  induction s as [|c s IH]; [reflexivity|].
  rewrite append_cons, IH. reflexivity.
Qed.

Lemma append_assoc (a b c : string) : (a +:+ b) +:+ c = a +:+ (b +:+ c).
Proof.
  induction a as [|x a IH]; [reflexivity|].
  rewrite !append_cons, IH. reflexivity.
Qed.

Lemma append_length (a b : string) :
  String.length (a +:+ b) = String.length a + String.length b.
Proof.
  induction a as [|x a IH]; [reflexivity|].
  rewrite append_cons. simpl. rewrite IH. reflexivity.
Qed.

Lemma startsWith_spec (s needle : string) :
  JsString.startsWith s needle = true <-> exists post, s = needle +:+ post.
Proof.
  revert s. induction needle as [|a needle IH]; intros s.
  - destruct s; simpl; split; eauto.
  - destruct s as [|b s]; simpl.
    + split; [discriminate|]. intros [post H]. discriminate H.
    + rewrite andb_true_iff, Ascii.eqb_eq, IH. split.
      * intros [-> [post ->]]. exists post. reflexivity.
      * intros [post H]. rewrite append_cons in H. injection H as -> ->. eauto.
Qed.

(** [includes] decides occurrence as a substring. *)
Lemma includes_spec (s needle : string) :
  JsString.includes s needle = true <-> JsString.Occurs needle s.
Proof.
  unfold JsString.Occurs. induction s as [|c s IH].
  - cbn [JsString.includes]. rewrite orb_false_r, startsWith_spec. split.
    + intros [post H]. exists EmptyString, post. exact H.
    + intros [[|x pre] [post H]]; [eauto|discriminate H].
  - cbn [JsString.includes]. rewrite orb_true_iff, startsWith_spec, IH. split.
    + intros [[post H]|[pre [post H]]].
      * exists EmptyString, post. exact H.
      * exists (String c pre), post. rewrite append_cons, <- H. reflexivity.
    + intros [[|x pre] [post H]].
      * left. exists post. exact H.
      * right. rewrite append_cons in H. injection H as -> ->. eauto.
Qed.

Lemma includes_false (s needle : string) :
  JsString.includes s needle = false <-> ~ JsString.Occurs needle s.
Proof.
  rewrite <- includes_spec. destruct (JsString.includes s needle); split; congruence.
Qed.

Lemma whiteSpaces_utf8 : JsString.whiteSpaces = map JsString.utf8 JsString.whiteSpaceCodePoints.
Proof. reflexivity. Qed.

Lemma trimEnd_empty (s : string) :
  JsString.trimEnd s = EmptyString <-> JsString.whiteSpaceOnly s = true.
Proof.
  destruct s as [|c s]; [cbn; tauto|].
  cbn [JsString.trimEnd]. destruct (JsString.whiteSpaceOnly (String c s)); split; congruence.
Qed.

Lemma whiteSpaceOnly_unfold (s : string) :
  JsString.whiteSpaceOnly s =
  match s with
  | EmptyString => true
  | String a s1 =>
      if JsString.isWhiteSpace (String a EmptyString) then JsString.whiteSpaceOnly s1
      else
        match s1 with
        | EmptyString => false
        | String b s2 =>
            if JsString.isWhiteSpace (String a (String b EmptyString))
            then JsString.whiteSpaceOnly s2
            else
              match s2 with
              | EmptyString => false
              | String c s3 =>
                  JsString.isWhiteSpace (String a (String b (String c EmptyString))) &&
                  JsString.whiteSpaceOnly s3
              end
        end
  end.
Proof. destruct s; reflexivity. Qed.

Lemma trimStart_unfold (s : string) :
  JsString.trimStart s =
  match s with
  | EmptyString => EmptyString
  | String a s1 =>
      if JsString.isWhiteSpace (String a EmptyString) then JsString.trimStart s1
      else
        match s1 with
        | EmptyString => s
        | String b s2 =>
            if JsString.isWhiteSpace (String a (String b EmptyString))
            then JsString.trimStart s2
            else
              match s2 with
              | EmptyString => s
              | String c s3 =>
                  if JsString.isWhiteSpace (String a (String b (String c EmptyString)))
                  then JsString.trimStart s3
                  else s
              end
        end
  end.
Proof. destruct s; reflexivity. Qed.

Lemma whiteSpaceOnly_trimStart_below (n : nat) (s : string) :
  String.length s < n ->
  JsString.whiteSpaceOnly (JsString.trimStart s) = JsString.whiteSpaceOnly s.
Proof.
  revert s. induction n as [|n IH]; intros s Hn; [lia|].
  rewrite (trimStart_unfold s), (whiteSpaceOnly_unfold s).
  destruct s as [|a [|b [|c s]]]; [reflexivity|..];
    (destruct (JsString.isWhiteSpace (String a EmptyString)) eqn:E1;
       [apply IH; cbn in *; lia|]).
  - rewrite whiteSpaceOnly_unfold, E1. reflexivity.
  - destruct (JsString.isWhiteSpace (String a (String b EmptyString))) eqn:E2;
      [reflexivity|].
    rewrite whiteSpaceOnly_unfold, E1, E2. reflexivity.
  - destruct (JsString.isWhiteSpace (String a (String b EmptyString))) eqn:E2;
      [apply IH; cbn in *; lia|].
    destruct (JsString.isWhiteSpace (String a (String b (String c EmptyString)))) eqn:E3;
      [apply IH; cbn in *; lia|].
    rewrite whiteSpaceOnly_unfold, E1, E2, E3. reflexivity.
Qed.

Lemma whiteSpaceOnly_trimStart (s : string) :
  JsString.whiteSpaceOnly (JsString.trimStart s) = JsString.whiteSpaceOnly s.
Proof. apply (whiteSpaceOnly_trimStart_below (S (String.length s))). lia. Qed.

(** [trim] leaves nothing exactly when every character is white space. *)
Lemma trim_empty (s : string) :
  JsString.truthy (JsString.trim s) = false <-> JsString.whiteSpaceOnly s = true.
Proof.
  unfold JsString.trim.
  rewrite <- whiteSpaceOnly_trimStart, <- trimEnd_empty.
  destruct (JsString.trimEnd (JsString.trimStart s)); simpl; split; congruence.
Qed.

Lemma whiteSpaceOnly_utf8 (cp : N) (s : string) :
  In cp JsString.whiteSpaceCodePoints ->
  JsString.whiteSpaceOnly (JsString.utf8 cp +:+ s) = JsString.whiteSpaceOnly s.
Proof.
  unfold JsString.whiteSpaceCodePoints. cbn [In]. intros H.
  repeat (destruct H as [<-|H]; [reflexivity|]). destruct H.
Qed.

Lemma Blank_whiteSpaceOnly (s : string) :
  JsString.Blank s -> JsString.whiteSpaceOnly s = true.
Proof.
  intros [cps [H ->]]. induction H as [|cp cps Hcp _ IH]; [reflexivity|].
  cbn [JsString.encode]. rewrite whiteSpaceOnly_utf8 by exact Hcp. exact IH.
Qed.

Lemma isWhiteSpace_utf8 (w : string) :
  JsString.isWhiteSpace w = true ->
  exists cp : N, In cp JsString.whiteSpaceCodePoints /\ JsString.utf8 cp = w.
Proof.
  unfold JsString.isWhiteSpace. rewrite whiteSpaces_utf8. intros H.
  apply existsb_exists in H. destruct H as [w' [Hin Heq]].
  apply String.eqb_eq in Heq. subst w'.
  apply in_map_iff in Hin. destruct Hin as [cp [H1 H2]]. eauto.
Qed.

Lemma Blank_cons (cp : N) (w s : string) :
  In cp JsString.whiteSpaceCodePoints -> JsString.utf8 cp = w ->
  JsString.Blank s -> JsString.Blank (w +:+ s).
Proof.
  intros Hcp <- [cps [H ->]]. exists (cp :: cps). split; [constructor; assumption|reflexivity].
Qed.

Lemma whiteSpaceOnly_Blank_below (n : nat) (s : string) :
  String.length s < n -> JsString.whiteSpaceOnly s = true -> JsString.Blank s.
Proof.
  revert s. induction n as [|n IH]; intros s Hn; [lia|].
  rewrite whiteSpaceOnly_unfold.
  destruct s as [|a [|b [|c s]]].
  - intros _. exists []. split; [constructor|reflexivity].
  - destruct (JsString.isWhiteSpace (String a EmptyString)) eqn:E1; [|discriminate].
    intros H. apply isWhiteSpace_utf8 in E1. destruct E1 as [cp [H1 H2]].
    apply (Blank_cons cp (String a EmptyString) EmptyString H1 H2).
    apply IH; [cbn in *; lia|exact H].
  - destruct (JsString.isWhiteSpace (String a EmptyString)) eqn:E1.
    + intros H. apply isWhiteSpace_utf8 in E1. destruct E1 as [cp [H1 H2]].
      apply (Blank_cons cp (String a EmptyString) (String b EmptyString) H1 H2).
      apply IH; [cbn in *; lia|exact H].
    + destruct (JsString.isWhiteSpace (String a (String b EmptyString))) eqn:E2;
        [|discriminate].
      intros H. apply isWhiteSpace_utf8 in E2. destruct E2 as [cp [H1 H2]].
      apply (Blank_cons cp (String a (String b EmptyString)) EmptyString H1 H2).
      apply IH; [cbn in *; lia|exact H].
  - destruct (JsString.isWhiteSpace (String a EmptyString)) eqn:E1.
    + intros H. apply isWhiteSpace_utf8 in E1. destruct E1 as [cp [H1 H2]].
      apply (Blank_cons cp (String a EmptyString) (String b (String c s)) H1 H2).
      apply IH; [cbn in *; lia|exact H].
    + destruct (JsString.isWhiteSpace (String a (String b EmptyString))) eqn:E2.
      * intros H. apply isWhiteSpace_utf8 in E2. destruct E2 as [cp [H1 H2]].
        apply (Blank_cons cp (String a (String b EmptyString)) (String c s) H1 H2).
        apply IH; [cbn in *; lia|exact H].
      * intros H. apply andb_true_iff in H. destruct H as [E3 H].
        apply isWhiteSpace_utf8 in E3. destruct E3 as [cp [H1 H2]].
        apply (Blank_cons cp (String a (String b (String c EmptyString))) s H1 H2).
        apply IH; [cbn in *; lia|exact H].
Qed.

(** [trim] leaves nothing exactly when the text is empty or white space
    only. *)
Lemma trim_Blank (s : string) :
  JsString.truthy (JsString.trim s) = false <-> JsString.Blank s.
Proof.
  rewrite trim_empty. split; [|apply Blank_whiteSpaceOnly].
  apply (whiteSpaceOnly_Blank_below (S (String.length s))). lia.
Qed.

(** ** JSON text *)

Lemma readChars_escape (c : ascii) (t : string) :
  Json.readChars (Json.escape c +:+ t) = Json.prepend c (Json.readChars t).
Proof.
  destruct c as [[] [] [] [] [] [] [] []]; reflexivity.
Qed.

Lemma readChars_escapeAll (s rest : string) :
  Json.readChars (Json.escapeAll s +:+ String Json.dquote rest) = Some (s, rest).
Proof.
  induction s as [|c s IH]; [reflexivity|].
  cbn [Json.escapeAll]. rewrite append_assoc, readChars_escape, IH. reflexivity.
Qed.

(** A string literal reads back as the string it quotes. *)
Lemma readQuoted_quote (s rest : string) :
  Json.readQuoted (Json.quote s +:+ rest) = Some (s, rest).
Proof.
  unfold Json.quote. rewrite append_cons. cbn [Json.readQuoted].
  rewrite Ascii.eqb_refl, append_assoc, append_cons. apply readChars_escapeAll.
Qed.

Lemma expect_append (p rest : string) : Json.expect p (p +:+ rest) = Some rest.
Proof.
  induction p as [|a p IH]; [destruct rest; reflexivity|].
  rewrite append_cons. cbn [Json.expect]. rewrite Ascii.eqb_refl. exact IH.
Qed.

Lemma append_char (c : ascii) (t : string) : String c EmptyString +:+ t = String c t.
Proof. reflexivity. Qed.

(** ** Rule tables *)

(** A row fires when one of its keywords occurs in the text, and is skipped
    when none does: the first row that fires decides. *)
Lemma firstMatch_hit {A : Type} (keywords : list string) (a : A)
  (rest : list (list string * A)) (d : A) (s : string) :
  (exists k, In k keywords /\ JsString.Occurs k s) ->
  Rules.firstMatch ((keywords, a) :: rest) d s = a.
Proof.
  intros [k [Hin Hocc]]. cbn [Rules.firstMatch].
  assert (H : existsb (JsString.includes s) keywords = true).
  { apply existsb_exists. exists k. split; [exact Hin|]. by apply includes_spec. }
  rewrite H. reflexivity.
Qed.

Lemma firstMatch_miss {A : Type} (keywords : list string) (a : A)
  (rest : list (list string * A)) (d : A) (s : string) :
  (forall k, In k keywords -> ~ JsString.Occurs k s) ->
  Rules.firstMatch ((keywords, a) :: rest) d s = Rules.firstMatch rest d s.
Proof.
  intros Hnone. cbn [Rules.firstMatch].
  destruct (existsb (JsString.includes s) keywords) eqn:E; [|reflexivity].
  apply existsb_exists in E as [k [Hin Hinc]].
  apply includes_spec in Hinc. destruct (Hnone k Hin Hinc).
Qed.

Lemma toLowerChar_idempotent (c : ascii) :
  JsString.toLowerChar (JsString.toLowerChar c) = JsString.toLowerChar c.
Proof. destruct c as [[] [] [] [] [] [] [] []]; reflexivity. Qed.

Lemma toLowerCase_idempotent (s : string) :
  JsString.toLowerCase (JsString.toLowerCase s) = JsString.toLowerCase s.
Proof.
  induction s as [|c s IH]; [reflexivity|].
  cbn [JsString.toLowerCase]. by rewrite toLowerChar_idempotent, IH.
Qed.

(** Case analysis on every substring test of the goal. *)
Ltac case_includes :=
  repeat match goal with
         | |- context [JsString.includes ?s ?k] => destruct (JsString.includes s k)
         end;
  reflexivity.

(** ** The chat interface *)

Module ChatProps.
Import Js JsString ChatInterface.

(** *** Saving and loading *)

Lemma readField_write (k v rest : string) :
  readField k (Json.key k +:+ Json.quote v +:+ rest) = Some (v, rest).
Proof.
  unfold readField. rewrite expect_append. simpl. apply readQuoted_quote.
Qed.

Lemma typeOfString_typeString (t : MessageType) :
  typeOfString (typeString t) = Some t.
Proof. destruct t; reflexivity. Qed.

Lemma readMessage_write (m : Message) (rest : string) :
  readMessage (writeMessage m +:+ rest) = Some (m, rest).
Proof.
  destruct m as [c t tm]. unfold readMessage, writeMessage. cbn [content type time].
  rewrite !append_assoc.
  rewrite (expect_append "{"). cbn [mbind option_bind].
  rewrite readField_write. cbn [mbind option_bind].
  rewrite (expect_append ","). cbn [mbind option_bind].
  rewrite readField_write. cbn [mbind option_bind].
  rewrite typeOfString_typeString. cbn [mbind option_bind].
  rewrite (expect_append ","). cbn [mbind option_bind].
  rewrite readField_write. cbn [mbind option_bind].
  rewrite (expect_append "}"). reflexivity.
Qed.

Lemma readTail_writeTail (ms : list Message) (fuel : nat) :
  length ms < fuel -> readTail fuel (writeTail ms) = Some ms.
Proof.
  revert fuel. induction ms as [|m ms IH]; intros [|fuel] H; simpl in H; try lia.
  - reflexivity.
  - cbn [writeTail]. rewrite append_char. cbn [readTail].
    change (Ascii.eqb "," "]") with false. change (Ascii.eqb "," ",") with true.
    cbv iota. rewrite readMessage_write. cbn [mbind option_bind].
    rewrite IH by lia. reflexivity.
Qed.

Lemma writeTail_length (ms : list Message) :
  length ms < String.length (writeTail ms).
Proof.
  induction ms as [|m ms IH]; [simpl; lia|].
  cbn [writeTail]. rewrite append_char. cbn [String.length length].
  rewrite append_length. lia.
Qed.

(** The fuel [parse] gives [readTail] is always enough: every array that
    [stringify] writes is read back in full. *)
Lemma parse_stringify (ms : list Message) : parse (stringify ms) = Some ms.
Proof.
  destruct ms as [|m ms]; [reflexivity|].
  unfold stringify. rewrite append_char. unfold parse.
  change (Ascii.eqb "[" "[") with true. cbv iota.
  assert (Hfuel : length ms < String.length (String "[" (writeMessage m +:+ writeTail ms))).
  { cbn [String.length]. rewrite append_length. pose proof (writeTail_length ms). lia. }
  generalize dependent (String.length (String "[" (writeMessage m +:+ writeTail ms))).
  intros fuel Hfuel.
  rewrite readMessage_write. cbn [mbind option_bind].
  rewrite readTail_writeTail by exact Hfuel.
  destruct m as [c t tm]. reflexivity.
Qed.

Lemma stringify_truthy (ms : list Message) : truthy (stringify ms) = true.
Proof. destruct ms; reflexivity. Qed.


(** *** The effect of the basic methods *)

Lemma addMessage_run (c : string) (t : MessageType) (now : string) (st : State) :
  addMessage c t now st =
  (mkState (messages st ++ [mkMessage c t now]) (isLoading st)
     (<["chatMessages" := stringify (messages st ++ [mkMessage c t now])]> (localStorage st))
     (pending st), Normal tt).
Proof. reflexivity. Qed.

Lemma saveMessages_run (st : State) :
  saveMessages st =
  (mkState (messages st) (isLoading st)
     (<["chatMessages" := stringify (messages st)]> (localStorage st)) (pending st),
   Normal tt).
Proof. reflexivity. Qed.

Lemma loadMessages_saved (st : State) (ms : list Message) :
  localStorage st !! "chatMessages" = Some (stringify ms) ->
  loadMessages st = (mkState ms (isLoading st) (localStorage st) (pending st), Normal tt).
Proof.
  intros H. unfold loadMessages, bind, get. rewrite H, stringify_truthy, parse_stringify.
  reflexivity.
Qed.

Lemma filter_bubbles (ms : list Message) :
  filter (fun b => ephemeral b = false) (map MessageBubble ms) = map MessageBubble ms.
Proof.
  induction ms as [|m ms IH]; [reflexivity|].
  cbn [map]. rewrite filter_cons_True by reflexivity. by rewrite IH.
Qed.

Lemma render_persistent (st : State) :
  filter (fun b => ephemeral b = false) (renderMessages st) = map MessageBubble (messages st).
Proof.
  unfold renderMessages. destruct (messages st) as [|m ms] eqn:E; [reflexivity|].
  rewrite filter_app, filter_bubbles. destruct (isLoading st).
  - rewrite filter_cons_False by (simpl; congruence). rewrite filter_nil. apply app_nil_r.
  - rewrite filter_nil. apply app_nil_r.
Qed.

(** C7.  Saving the log and loading it back (on the same object, or in a
    new [ChatInterface] after the page is reloaded) gives the conversation
    that [renderMessages] shows without its typing bubble, in the same
    order: the typing indicator is the flag [isLoading], which is not part
    of [messages] and is never written to [localStorage]. *)
Theorem restore_persist (st : State) :
  exists st' : State,
    construct (localStorage (exec saveMessages st)) = (st', Normal tt) /\
    map MessageBubble (messages st') =
      filter (fun b => ephemeral b = false) (renderMessages st) /\
    messages st' = messages st /\
    messages (exec loadMessages (exec saveMessages st)) = messages st.
Proof.
  unfold construct. unfold exec at 1 2. rewrite saveMessages_run. cbn [fst localStorage].
  eexists. split.
  - apply loadMessages_saved. cbn [localStorage]. apply lookup_insert_eq.
  - cbn [messages]. rewrite render_persistent. split; [reflexivity|]. split; [reflexivity|].
    unfold exec. erewrite loadMessages_saved; [reflexivity|].
    cbn [localStorage]. apply lookup_insert_eq.
Qed.

(** *** Intent classification *)

(** [classify] is the ordered table: all of it when the search returned a
    flight, the table without its first row when it returned none.  On a
    [null] body the first row's test reads a property of [null]. *)
Lemma classify_table (userMessage : string) (data : option SearchData) :
  classify userMessage data =
    if Rules.hasFlights data then Normal (Spec.classifyIntent userMessage)
    else
      let lowerMessage := toLowerCase userMessage in
      let later := Rules.firstMatch (tail Rules.intentRules) Fallback lowerMessage in
      match data with
      | None =>
          if existsb (includes lowerMessage) ["flight"; "book"] then Throw nullAccess
          else Normal later
      | Some _ => Normal later
      end.
Proof.
  unfold classify, Spec.classifyIntent, Rules.hasFlights, Rules.intentRules.
  cbn [tail Rules.firstMatch existsb]. rewrite !orb_false_r.
  destruct data as [[[[|f fs]|]]|]; cbn [outbound_flights]; case_includes.
Qed.

(** The reply of [generateAIResponse] is the text of the intent that
    [classify] names. *)
Lemma generateAIResponse_classify (userMessage : string) (data : option SearchData) :
  generateAIResponse userMessage data =
    match classify userMessage data with
    | Normal i => Normal (replyText i data)
    | Throw e => Throw e
    end.
Proof.
  unfold generateAIResponse, classify.
  destruct data as [[[[|f fs]|]]|]; cbn [outbound_flights]; case_includes.
Qed.

(** C2 (as amended).  Classification is the fixed, ordered, case-insensitive
    substring table with first match wins, and depends on nothing but the
    utterance and the search data of the call; the first row ("flight",
    "book") answers only when the search returned at least one flight, and
    otherwise the later rows are tried.  "Find flights from Bangalore to
    Dubai" is FlightSearch when a flight was found and Fallback when none
    was; "hello there" is Greeting, "need a hotel in Riyadh" is HotelSearch
    and "asdf" is Fallback whatever the data.  The reply that
    [generateAIResponse] returns is the text of the intent so found. *)
Theorem intent_classification :
  (forall userMessage data,
     classify userMessage data =
       if Rules.hasFlights data then Normal (Spec.classifyIntent userMessage)
       else
         let lowerMessage := toLowerCase userMessage in
         let later := Rules.firstMatch (tail Rules.intentRules) Fallback lowerMessage in
         match data with
         | None =>
             if existsb (includes lowerMessage) ["flight"; "book"] then Throw nullAccess
             else Normal later
         | Some _ => Normal later
         end) /\
  (forall userMessage data,
     classify (toLowerCase userMessage) data = classify userMessage data) /\
  (forall flight others,
     classify "Find flights from Bangalore to Dubai"
       (Some (mkSearchData (Some (flight :: others)))) = Normal FlightSearch) /\
  classify "Find flights from Bangalore to Dubai" (Some (mkSearchData (Some []))) =
    Normal Fallback /\
  classify "Find flights from Bangalore to Dubai" (Some (mkSearchData None)) =
    Normal Fallback /\
  (forall data, classify "hello there" data = Normal Greeting) /\
  (forall data, classify "need a hotel in Riyadh" data = Normal HotelSearch) /\
  (forall data, classify "asdf" data = Normal Fallback) /\
  (forall userMessage data,
     generateAIResponse userMessage data =
       match classify userMessage data with
       | Normal i => Normal (replyText i data)
       | Throw e => Throw e
       end).
Proof.
  split; [exact classify_table|].
  split.
  { intros m data. unfold classify. rewrite toLowerCase_idempotent. reflexivity. }
  repeat split; try exact generateAIResponse_classify;
    intros; rewrite classify_table; vm_compute; reflexivity.
Qed.

(** C2, counterexample.  With a search that returned no flight, "Find
    flights from Bangalore to Dubai" is not classified FlightSearch, the
    intent the table alone gives it. *)
Lemma find_flights_without_results :
  Spec.classifyIntent "Find flights from Bangalore to Dubai" = FlightSearch /\
  classify "Find flights from Bangalore to Dubai" (Some (mkSearchData (Some []))) <>
    Normal FlightSearch.
Proof. split; [reflexivity|]. vm_compute. discriminate. Qed.


(** *** The text pipeline *)

Lemma sendMessage_call_empty (now input : string) (st : State) :
  whiteSpaceOnly input = true -> sendMessage_call now input st = (st, Normal tt).
Proof.
  intros H. apply trim_empty in H. unfold sendMessage_call. rewrite H. reflexivity.
Qed.

Lemma sendMessage_call_run (now input : string) (st : State) :
  truthy (trim input) = true ->
  sendMessage_call now input st =
  (mkState (messages st ++ [mkMessage (trim input) user now]) true
     (<["chatMessages" := stringify (messages st ++ [mkMessage (trim input) user now])]>
        (localStorage st))
     (pending st ++ [trim input]), Normal tt).
Proof.
  intros H. unfold sendMessage_call. rewrite H. reflexivity.
Qed.

Lemma sendMessage_resume_run (now message : string) (o : FetchOutcome) (st : State) :
  sendMessage_resume now message o st =
  (mkState (messages st ++ [mkMessage (Schedule.replyContent message o) ai now]) false
     (<["chatMessages" :=
          stringify (messages st ++ [mkMessage (Schedule.replyContent message o) ai now])]>
        (localStorage st))
     (pending st), Normal tt).
Proof.
  unfold sendMessage_resume, Schedule.replyContent, tryCatchFinally, tryCatch, bind.
  destruct o as [e|[] [e|data]]; try reflexivity.
  cbn [awaitFetch awaitJson ret fst snd negb throw lift].
  destruct (generateAIResponse message data); reflexivity.
Qed.

Lemma replyContent_failure (message : string) (o : FetchOutcome) :
  Schedule.collaboratorFails o = true -> Schedule.replyContent message o = apology.
Proof.
  destruct o as [e|[] [e|data]]; try reflexivity. discriminate.
Qed.

(** C4 (as amended).  When the search call fails (network error, response
    not ok, or a body that is not JSON), the rest of [sendMessage] removes
    the typing indicator, appends the apology as a message of the
    assistant, saves the log and completes normally: it throws nothing.
    The state it leaves is written out in full: it holds the same four
    fields as before and nothing about the failure, so no error kind is
    recorded.  For every outcome of the call, failed or not, the
    completion is normal, as is that of the part of [sendMessage] that
    runs before the request. *)
Theorem failure_is_recovered (now message : string) (o : FetchOutcome) (st : State) :
  Schedule.collaboratorFails o = true ->
  sendMessage_resume now message o st =
    (mkState (messages st ++ [mkMessage apology ai now]) false
       (<["chatMessages" := stringify (messages st ++ [mkMessage apology ai now])]>
          (localStorage st))
       (pending st), Normal tt) /\
  (forall o' : FetchOutcome,
     completion (sendMessage_resume now message o') st = Normal tt) /\
  (forall input : string,
     completion (sendMessage_call now input) st = Normal tt).
Proof.
  intros H. split; [|split].
  - rewrite sendMessage_resume_run, (replyContent_failure _ _ H). reflexivity.
  - intros o'. unfold completion. rewrite sendMessage_resume_run. reflexivity.
  - intros input. unfold completion. destruct (truthy (trim input)) eqn:E.
    + rewrite (sendMessage_call_run _ _ _ E). reflexivity.
    + rewrite sendMessage_call_empty by (by apply trim_empty). reflexivity.
Qed.

(** The request of a pending "hello" is rejected by the network. *)
Lemma failure_is_recovered_witness :
  Schedule.collaboratorFails (Rejected (mkError "Failed to fetch")) = true /\
  isLoading
    (exec (sendMessage_resume "10:01 AM" "hello" (Rejected (mkError "Failed to fetch")))
          (mkState [mkMessage "hello" user "10:00 AM"] true ∅ [])) = false.
Proof.
  split; [reflexivity|].
  unfold exec.
  rewrite (proj1 (failure_is_recovered "10:01 AM" "hello"
                    (Rejected (mkError "Failed to fetch"))
                    (mkState [mkMessage "hello" user "10:00 AM"] true ∅ [])
                    eq_refl)).
  reflexivity.
Defined.

(** C4, counterexample.  Nothing that can be read from the state after a
    failed call tells the kind of the failure: a failure whose text the
    error rules class as a denied permission and one they class as unknown
    leave the very same state. *)
Lemma failure_kind_not_recorded :
  ~ exists lastErrorKind : State -> Widget.ErrorKind,
      forall (now message : string) (e : JsError) (st : State),
        lastErrorKind (exec (sendMessage_resume now message (Rejected e)) st) =
        Widget.errorKind e.
Proof.
  intros [k H].
  pose proof (H "" "" (mkError "permission denied") (mkState [] true ∅ [])) as H1.
  pose proof (H "" "" (mkError "Failed to fetch") (mkState [] true ∅ [])) as H2.
  unfold exec in H1, H2. rewrite sendMessage_resume_run in H1, H2.
  cbn [fst Schedule.replyContent] in H1, H2. rewrite H1 in H2. vm_compute in H2. discriminate.
Qed.

Lemma run_app (evs1 evs2 : list Event) (st : State) :
  run (evs1 ++ evs2) st = run evs2 (run evs1 st).
Proof. apply fold_left_app. Qed.

Lemma run_cons (ev : Event) (evs : list Event) (st : State) :
  run (ev :: evs) st = run evs (step ev st).
Proof. reflexivity. Qed.

Lemma run_time (ticks : list N) (st : State) : run (map TimePasses ticks) st = st.
Proof. induction ticks as [|t ticks IH]; [reflexivity|]. exact IH. Qed.

Lemma step_send_empty (now input : string) (st : State) :
  whiteSpaceOnly input = true -> step (SendMessage now input) st = st.
Proof.
  intros H. cbn [step]. unfold exec. by rewrite sendMessage_call_empty.
Qed.

Lemma step_send (now input : string) (st : State) :
  truthy (trim input) = true ->
  step (SendMessage now input) st =
  mkState (messages st ++ [mkMessage (trim input) user now]) true
    (<["chatMessages" := stringify (messages st ++ [mkMessage (trim input) user now])]>
       (localStorage st))
    (pending st ++ [trim input]).
Proof.
  intros H. cbn [step]. unfold exec. by rewrite sendMessage_call_run.
Qed.

Lemma step_settle (i : nat) (now message : string) (o : FetchOutcome) (st : State) :
  pending st !! i = Some message ->
  step (FetchSettles i now o) st =
  mkState (messages st ++ [mkMessage (Schedule.replyContent message o) ai now]) false
    (<["chatMessages" :=
         stringify (messages st ++ [mkMessage (Schedule.replyContent message o) ai now])]>
       (localStorage st))
    (delete i (pending st)).
Proof.
  intros H. cbn [step]. rewrite H. unfold exec. by rewrite sendMessage_resume_run.
Qed.

Lemma step_settle_none (i : nat) (now : string) (o : FetchOutcome) (st : State) :
  pending st !! i = None -> step (FetchSettles i now o) st = st.
Proof. intros H. cbn [step]. by rewrite H. Qed.


(** C6 (as amended).  The search call is bounded by no timeout.  After a
    message is sent, however much time passes, the call stays pending: the
    typing indicator stays on, the log ends with the user's message, and
    no apology is appended.  Only the request itself ends the wait: when it
    settles as a failure, the indicator is removed and the apology is
    appended; no error kind is recorded. *)
Theorem pending_until_settled (now input : string) (ticks : list N) (st : State) :
  truthy (trim input) = true ->
  let st1 := run (SendMessage now input :: map TimePasses ticks) st in
  isLoading st1 = true /\
  messages st1 = messages st ++ [mkMessage (trim input) user now] /\
  pending st1 = pending st ++ [trim input] /\
  forall (now' : string) (o : FetchOutcome),
    Schedule.collaboratorFails o = true ->
    let st2 := step (FetchSettles (length (pending st)) now' o) st1 in
    isLoading st2 = false /\
    messages st2 =
      messages st ++ [mkMessage (trim input) user now; mkMessage apology ai now'] /\
    pending st2 = pending st.
Proof.
  intros H st1. subst st1. rewrite run_cons, run_time, (step_send _ _ _ H).
  cbn [isLoading messages pending].
  split; [reflexivity|]. split; [reflexivity|]. split; [reflexivity|].
  intros now' o Hfails. cbv zeta.
  erewrite step_settle; cycle 1.
  { cbn [pending]. apply list_lookup_middle. reflexivity. }
  cbn [isLoading messages pending]. rewrite (replyContent_failure _ _ Hfails).
  split; [reflexivity|]. split.
  - rewrite <- app_assoc. reflexivity.
  - rewrite delete_middle. apply app_nil_r.
Qed.

(** A minute passes after "hello" was sent in an empty chat. *)
Lemma pending_until_settled_witness :
  truthy (trim "hello") = true /\
  isLoading (run (SendMessage "10:00 AM" "hello" :: map TimePasses [10000%N; 50000%N])
                 (mkState [] false ∅ [])) = true.
Proof.
  split; [reflexivity|].
  apply (pending_until_settled "10:00 AM" "hello" [10000%N; 50000%N]
           (mkState [] false ∅ [])).
  reflexivity.
Defined.

(** C6, counterexample.  One minute after a message was sent, with the
    request still unanswered, the state is not the one the timeout is
    said to leave: the typing indicator is still on and no apology was
    appended. *)
Lemma no_timeout_after_a_minute :
  Spec.timedOut
    (run [SendMessage "10:00 AM" "Find flights from Bangalore to Dubai";
          TimePasses 60000%N]
         (mkState [] false ∅ [])) <> true.
Proof. vm_compute. discriminate. Qed.


(** *** Reloading the page *)

Lemma Saved_synced (st : State) :
  localStorage st !! "chatMessages" = Some (stringify (messages st)) -> Saved st.
Proof.
  intros H. unfold Saved, construct. eexists. split.
  - apply loadMessages_saved. exact H.
  - reflexivity.
Qed.

Lemma loadMessages_storage (st : State) :
  localStorage (exec loadMessages st) = localStorage st.
Proof.
  unfold exec, loadMessages, bind, get.
  destruct (localStorage st !! "chatMessages") as [saved|]; [|reflexivity].
  destruct (truthy saved); [|reflexivity].
  destruct (parse saved); reflexivity.
Qed.

Lemma construct_Saved (storage : gmap string string) (st : State) :
  construct storage = (st, Normal tt) -> Saved st.
Proof.
  intros H. exists st. split; [|reflexivity].
  assert (Hs : localStorage st = storage).
  { change st with (fst (st, Normal tt)). rewrite <- H. apply loadMessages_storage. }
  rewrite Hs. exact H.
Qed.

Lemma step_Saved (ev : Event) (st : State) : Saved st -> Saved (step ev st).
Proof.
  intros HS. destruct ev as [now input|i now o|[]|ms].
  - destruct (truthy (trim input)) eqn:E.
    + rewrite (step_send _ _ _ E). apply Saved_synced. apply lookup_insert_eq.
    + rewrite step_send_empty by (by apply trim_empty). exact HS.
  - destruct (pending st !! i) as [message|] eqn:E.
    + rewrite (step_settle _ _ _ _ _ E). apply Saved_synced. apply lookup_insert_eq.
    + rewrite (step_settle_none _ _ _ _ E). exact HS.
  - apply Saved_synced. apply lookup_insert_eq.
  - exact HS.
  - exact HS.
Qed.

(** Reloading the page at any time restores the conversation shown,
    without the typing bubble. *)
Lemma run_Saved (evs : list Event) (st : State) : Saved st -> Saved (run evs st).
Proof.
  revert st. induction evs as [|ev evs IH]; intros st H; [exact H|].
  rewrite run_cons. apply IH, step_Saved, H.
Qed.

Lemma reload_restores (storage : gmap string string) (st0 : State) (evs : list Event) :
  construct storage = (st0, Normal tt) ->
  exists st' : State,
    construct (localStorage (run evs st0)) = (st', Normal tt) /\
    map MessageBubble (messages st') =
      filter (fun b => ephemeral b = false) (renderMessages (run evs st0)).
Proof.
  intros H. destruct (run_Saved evs st0 (construct_Saved _ _ H)) as [st' [H1 H2]].
  exists st'. split; [exact H1|]. rewrite render_persistent, H2. reflexivity.
Qed.

End ChatProps.

(** ** The voice widget *)

Module WidgetProps.
Import Js JsString Widget.

(** *** The effect of the methods *)

Lemma widget_addMessage_run (t : string) (ty : MessageType) (now : string) (st : State) :
  addMessage t ty now st =
  (mkState (config st) (isOpen st) (isListening st) (vapiClient st) (vapiReady st)
     (messages st ++ [mkMessage t ty now]) (vapiSDK st) (sdkCalls st) (timers st),
   Normal tt).
Proof. reflexivity. Qed.

Lemma sendTextMessage_empty (now input : string) (st : State) :
  whiteSpaceOnly input = true -> sendTextMessage now (Some input) st = (st, Normal tt).
Proof.
  intros H. apply trim_empty in H. unfold sendTextMessage. rewrite H. reflexivity.
Qed.

Lemma sendTextMessage_run (now input : string) (st : State) :
  truthy (trim input) = true ->
  sendTextMessage now (Some input) st =
  (mkState (config st) (isOpen st) (isListening st) (vapiClient st) (vapiReady st)
     (messages st ++ [mkMessage (trim input) user now; mkMessage typingText ai now])
     (vapiSDK st) (sdkCalls st) (S (timers st)),
   Normal tt).
Proof.
  intros H. unfold sendTextMessage. rewrite H. cbn [negb].
  unfold bind, addMessage, get, setMessages, setTimers, modify. cbn.
  rewrite <- app_assoc. reflexivity.
Qed.

Lemma replyTimer_typing (now : string) (st : State) (ms : list Message) (m : Message) :
  messages st = ms ++ [m] ->
  text m = typingText ->
  replyTimer now st =
  (mkState (config st) (isOpen st) (isListening st) (vapiClient st) (vapiReady st)
     (ms ++ [mkMessage receivedText ai now])
     (vapiSDK st) (sdkCalls st) (timers st),
   Normal tt).
Proof.
  intros Hms Htext. destruct st as [c o l cl r msgs sdk calls n].
  cbn [messages] in Hms. subst msgs.
  unfold replyTimer, bind, get. cbn [messages]. rewrite last_snoc, Htext.
  cbn. rewrite removelast_last. reflexivity.
Qed.

Lemma replyTimer_other (now : string) (st : State) (ms : list Message) (m : Message) :
  messages st = ms ++ [m] ->
  text m <> typingText ->
  replyTimer now st =
  (mkState (config st) (isOpen st) (isListening st) (vapiClient st) (vapiReady st)
     (messages st ++ [mkMessage receivedText ai now])
     (vapiSDK st) (sdkCalls st) (timers st),
   Normal tt).
Proof.
  intros Hms Htext. destruct st as [c o l cl r msgs sdk calls n].
  cbn [messages] in Hms. subst msgs.
  unfold replyTimer, bind, get. cbn [messages]. rewrite last_snoc.
  apply String.eqb_neq in Htext. rewrite Htext. reflexivity.
Qed.

Lemma replyTimer_empty (now : string) (st : State) :
  messages st = [] -> replyTimer now st = (st, Throw undefinedText).
Proof. intros H. unfold replyTimer, bind, get. rewrite H. reflexivity. Qed.

Lemma typingCount_app (a b : list Message) :
  typingCount (a ++ b) = typingCount a + typingCount b.
Proof. unfold typingCount. rewrite filter_app, length_app. reflexivity. Qed.

Lemma typingCount_cons (m : Message) (ms : list Message) :
  typingCount (m :: ms) = (if isTyping m then 1 else 0) + typingCount ms.
Proof.
  unfold typingCount. rewrite filter_cons.
  destruct (decide (isTyping m = true)) as [E|E].
  - rewrite E. reflexivity.
  - apply not_true_is_false in E. rewrite E. reflexivity.
Qed.

Lemma isTyping_user (t now : string) : isTyping (mkMessage t user now) = false.
Proof. unfold isTyping. cbn [type]. apply andb_false_r. Qed.

(** C1 (as amended).  [sendTextMessage] appends its own typing indicator
    after the user's message and replaces none that is already there: the
    number of indicators in the log grows by one each time, and the new one
    is the last message.  When the log held no indicator, it then holds
    exactly one; and when the reply timer fires with that indicator still
    last, the indicator is removed before the reply is appended, and the
    log holds none. *)
Theorem one_indicator_when_unanswered (now now' input : string) (st : State) :
  truthy (trim input) = true ->
  let st1 := exec (sendTextMessage now (Some input)) st in
  typingCount (messages st1) = S (typingCount (messages st)) /\
  last (messages st1) = Some (mkMessage typingText ai now) /\
  (typingCount (messages st) = 0 ->
   typingCount (messages st1) = 1 /\
   let st2 := exec (replyTimer now') st1 in
   messages st2 =
     messages st ++ [mkMessage (trim input) user now; mkMessage receivedText ai now'] /\
   typingCount (messages st2) = 0).
Proof.
  intros H. cbv zeta. unfold exec. rewrite (sendTextMessage_run _ _ _ H). cbn [fst messages].
  assert (Hcount : typingCount (messages st ++ [mkMessage (trim input) user now; mkMessage typingText ai now]) = S (typingCount (messages st))).
  { rewrite typingCount_app, !typingCount_cons, isTyping_user. cbn. lia. }
  split; [exact Hcount|]. split.
  { change [mkMessage (trim input) user now; mkMessage typingText ai now]
      with ([mkMessage (trim input) user now] ++ [mkMessage typingText ai now]).
    rewrite app_assoc. apply last_snoc. }
  intros H0. split; [lia|].
  erewrite replyTimer_typing; cycle 1.
  { cbn [messages].
    change [mkMessage (trim input) user now; mkMessage typingText ai now]
      with ([mkMessage (trim input) user now] ++ [mkMessage typingText ai now]).
    rewrite app_assoc. reflexivity. }
  { reflexivity. }
  cbn [fst messages]. rewrite <- app_assoc. split; [reflexivity|].
  rewrite typingCount_app, H0. cbn [app].
  rewrite !typingCount_cons, isTyping_user. reflexivity.
Qed.
Ltac widget_run :=
  cbv [bind ret throw get modify tryCatch lift exec completion fst snd
       keyPrefix sdkRun sdkStop showError addMessage onCallEnd
       setOpen setListening setClient setReady setMessages logCall setTimers
       config isOpen isListening vapiClient vapiReady messages vapiSDK sdkCalls timers
       negb].

Lemma togglePanel_run (now : string) (st : State) :
  togglePanel now st =
  (mkState (config st) (negb (isOpen st)) (isListening st) (vapiClient st) (vapiReady st)
     (messages st ++
      (if negb (isOpen st) && (length (messages st) =? 0)
       then [mkMessage (if vapiReady st then welcomeReady else welcomeLoading) ai now]
       else []))
     (vapiSDK st) (sdkCalls st) (timers st),
   Normal tt).
Proof.
  unfold togglePanel, bind, get, setOpen, modify. cbn [isOpen messages vapiReady].
  destruct (negb (isOpen st) && (length (messages st) =? 0)); [reflexivity|].
  cbn. rewrite app_nil_r. reflexivity.
Qed.

Lemma clearMessages_run (st : State) :
  clearMessages st =
  (mkState (config st) (isOpen st) (isListening st) (vapiClient st) (vapiReady st)
     [] (vapiSDK st) (sdkCalls st) (timers st),
   Normal tt).
Proof. reflexivity. Qed.

Lemma startVoiceCall_not_ready (now : string) (o : option JsError) (st : State) :
  ready st = false ->
  startVoiceCall now o st =
  (mkState (config st) (isOpen st) (isListening st) (vapiClient st) (vapiReady st)
     (messages st ++ [mkMessage ("⚠️ " +:+ notReadyText) system now])
     (vapiSDK st) (sdkCalls st) (timers st),
   Normal tt).
Proof.
  intros H. unfold startVoiceCall, bind, get. rewrite H. reflexivity.
Qed.

Lemma startVoiceCall_started (now : string) (st : State) (sdk : Sdk) :
  ready st = true -> vapiSDK st = Some sdk -> hasRun sdk = true ->
  substringThrows (vapiPublicKey (config st)) = None ->
  startVoiceCall now None st =
  (mkState (config st) (isOpen st) true (vapiClient st) (vapiReady st)
     (messages st ++ [mkMessage startedText system now])
     (vapiSDK st)
     (sdkCalls st ++ [Run (vapiPublicKey (config st)) (vapiAssistantId (config st))])
     (timers st),
   Normal tt).
Proof.
  intros Hr Hsdk Hrun Hkey. unfold startVoiceCall, bind, get. rewrite Hr.
  destruct st as [c o l cl r msgs s calls n]. cbn [vapiSDK config] in Hsdk, Hkey. subst s.
  widget_run. rewrite Hkey, Hrun. reflexivity.
Qed.

Lemma startVoiceCall_rejected (now : string) (e : JsError) (st : State) (sdk : Sdk) :
  ready st = true -> vapiSDK st = Some sdk -> hasRun sdk = true ->
  substringThrows (vapiPublicKey (config st)) = None ->
  startVoiceCall now (Some e) st =
  (mkState (config st) (isOpen st) false (vapiClient st) (vapiReady st)
     (messages st ++ [mkMessage ("⚠️ " +:+ getErrorMessage e) system now])
     (vapiSDK st)
     (sdkCalls st ++ [Run (vapiPublicKey (config st)) (vapiAssistantId (config st))])
     (timers st),
   Normal tt).
Proof.
  intros Hr Hsdk Hrun Hkey. unfold startVoiceCall, bind, get. rewrite Hr.
  destruct st as [c o l cl r msgs s calls n]. cbn [vapiSDK config] in Hsdk, Hkey. subst s.
  widget_run. rewrite Hkey, Hrun. reflexivity.
Qed.

Lemma endVoiceCall_idle (now : string) (o : option JsError) (st : State) :
  isListening st = false -> endVoiceCall now o st = (st, Normal tt).
Proof.
  intros H. unfold endVoiceCall, bind, get. rewrite H. reflexivity.
Qed.

(** The calls [endVoiceCall] makes to the SDK. *)
Lemma endVoiceCall_listening (now : string) (o : option JsError) (st : State) :
  isListening st = true ->
  endVoiceCall now o st =
  (mkState (config st) (isOpen st) false (vapiClient st) (vapiReady st)
     (messages st ++ [mkMessage callEndedText system now])
     (vapiSDK st)
     (sdkCalls st ++
      match vapiSDK st with
      | Some sdk => if hasStop sdk then [Stop] else []
      | None => []
      end)
     (timers st),
   Normal tt).
Proof.
  intros H. unfold endVoiceCall, bind, get. rewrite H.
  destruct st as [c op l cl r msgs [[hr []]|] calls n]; destruct o as [e|];
    widget_run; rewrite ?app_nil_r; reflexivity.
Qed.

Lemma sendTextMessage_missing (now : string) (st : State) :
  sendTextMessage now None st = (st, Normal tt).
Proof. reflexivity. Qed.

(** *** The states a widget can reach *)

Lemma Consistent_ready (st : State) : Consistent st -> ready st = vapiReady st.
Proof.
  intros [H _]. unfold ready. destruct (vapiReady st); [|reflexivity].
  destruct H as [sdk [_ [_ ->]]]; [reflexivity|]. reflexivity.
Qed.

Lemma construct_Consistent (c : ConfigArg) (sdk : option Sdk) (now : string) :
  Consistent (construct c sdk now).
Proof.
  unfold construct. generalize (configOf c). intros [a k i p q].
  destruct sdk as [[[] hs]|]; destruct k as [s|[e|]];
    (split; [|split]); cbn; intros H; try discriminate; eauto.
Qed.

Lemma widget_run_cons (ev : Event) (evs : list Event) (st : State) :
  run (ev :: evs) st = run evs (step ev st).
Proof. reflexivity. Qed.


Lemma replyTimer_frame (now : string) (st : State) :
  exists ms', exec (replyTimer now) st =
    mkState (config st) (isOpen st) (isListening st) (vapiClient st) (vapiReady st)
      ms' (vapiSDK st) (sdkCalls st) (timers st).
Proof.
  unfold exec. destruct (messages st) as [|m0 ms0] eqn:E using rev_ind.
  - rewrite (replyTimer_empty _ _ E). exists []. rewrite <- E. by destruct st.
  - destruct (String.eqb_spec (text m0) typingText) as [Ht|Ht].
    + rewrite (replyTimer_typing _ _ _ _ E Ht). eauto.
    + rewrite (replyTimer_other _ _ _ _ E Ht). eauto.
Qed.

Lemma step_Consistent (ev : Event) (st : State) : Consistent st -> Consistent (step ev st).
Proof.
  intros HI. pose proof (Consistent_ready st HI) as Hready. destruct HI as [H1 [H2 H3]].
  destruct ev as [now|now o|now o| |now [input|]|now]; cbn [step]; unfold exec.
  - rewrite togglePanel_run. repeat split; assumption.
  - destruct (vapiReady st) eqn:E.
    + destruct (H1 eq_refl) as [sdk [Hs [Hr Hc]]].
      destruct o as [e|].
      * rewrite (startVoiceCall_rejected _ _ _ sdk Hready Hs Hr (H3 eq_refl)). cbn [fst].
        repeat split; cbn; rewrite ?E; try assumption; discriminate.
      * rewrite (startVoiceCall_started _ _ sdk Hready Hs Hr (H3 eq_refl)). cbn [fst].
        repeat split; cbn; rewrite ?E; try assumption; reflexivity.
    + rewrite (startVoiceCall_not_ready _ _ _ Hready). cbn [fst].
      repeat split; cbn; rewrite ?E; assumption.
  - destruct (isListening st) eqn:E.
    + rewrite (endVoiceCall_listening _ _ _ E).
      repeat split; cbn; try assumption; discriminate.
    + rewrite (endVoiceCall_idle _ _ _ E). cbn [fst].
      repeat split; rewrite ?E; assumption.
  - rewrite clearMessages_run. repeat split; assumption.
  - destruct (truthy (trim input)) eqn:E.
    + rewrite (sendTextMessage_run _ _ _ E). repeat split; assumption.
    + rewrite sendTextMessage_empty by (by apply trim_empty). repeat split; assumption.
  - repeat split; assumption.
  - destruct (timers st) as [|n] eqn:E; [repeat split; assumption|].
    change (fst ((setTimers n ;;; replyTimer now) st)) with
      (exec (replyTimer now)
         (mkState (config st) (isOpen st) (isListening st) (vapiClient st) (vapiReady st)
            (messages st) (vapiSDK st) (sdkCalls st) n)).
    match goal with |- Consistent (exec _ ?s) => destruct (replyTimer_frame now s) as [ms' ->] end.
    repeat split; assumption.
Qed.

Lemma Reachable_Consistent (st : State) : Reachable st -> Consistent st.
Proof.
  intros [c [sdk [now [evs ->]]]].
  generalize (construct_Consistent c sdk now). generalize (construct c sdk now).
  induction evs as [|ev evs IH]; intros st H; [exact H|].
  rewrite widget_run_cons. apply IH, step_Consistent, H.
Qed.

(** C8.  In every state of a widget: while the SDK is not ready,
    [startVoiceCall] changes nothing but the log, to which it appends one
    system message saying that the voice service is still loading: the
    session does not start listening and the SDK is not called.  When the
    SDK is ready, [startVoiceCall] calls the SDK's [run] with the
    configured keys and, the call succeeding, the session is LISTENING
    and a system message announces the call.  (A call that the SDK
    rejects leaves the text of the error rule in the log and the session
    not listening.) *)
Theorem start_voice_call (now : string) (st : State) :
  Reachable st ->
  (ready st = false ->
   forall o : option JsError,
     startVoiceCall now o st =
       (mkState (config st) (isOpen st) (isListening st) (vapiClient st) (vapiReady st)
          (messages st ++ [mkMessage ("⚠️ " +:+ notReadyText) system now])
          (vapiSDK st) (sdkCalls st) (timers st),
        Normal tt)) /\
  (ready st = true ->
   startVoiceCall now None st =
     (mkState (config st) (isOpen st) true (vapiClient st) (vapiReady st)
        (messages st ++ [mkMessage startedText system now])
        (vapiSDK st)
        (sdkCalls st ++ [Run (vapiPublicKey (config st)) (vapiAssistantId (config st))])
        (timers st),
      Normal tt) /\
   sessionState (exec (startVoiceCall now None) st) = LISTENING /\
   forall e : JsError,
     startVoiceCall now (Some e) st =
       (mkState (config st) (isOpen st) false (vapiClient st) (vapiReady st)
          (messages st ++ [mkMessage ("⚠️ " +:+ getErrorMessage e) system now])
          (vapiSDK st)
          (sdkCalls st ++ [Run (vapiPublicKey (config st)) (vapiAssistantId (config st))])
          (timers st),
        Normal tt)).
Proof.
  intros HR. apply Reachable_Consistent in HR. pose proof (Consistent_ready st HR) as Hready.
  destruct HR as [H1 [H2 H3]]. split.
  - intros Hn o. apply startVoiceCall_not_ready, Hn.
  - intros Hr. rewrite Hready in Hr. destruct (H1 Hr) as [sdk [Hs [Hrun Hc]]].
    pose proof (H3 Hr) as Hkey. rewrite <- Hready in Hr. split; [|split].
    + apply (startVoiceCall_started now st sdk Hr Hs Hrun Hkey).
    + unfold exec. rewrite (startVoiceCall_started now st sdk Hr Hs Hrun Hkey). reflexivity.
    + intros e. apply (startVoiceCall_rejected now e st sdk Hr Hs Hrun Hkey).
Qed.

(** C9 (as amended).  In every state of a widget: [endVoiceCall] while
    LISTENING calls the SDK's [stop] when the SDK object of the page has
    a [stop] method, and makes no call to the SDK when it has none; in
    both cases, and whether or not [stop] throws, it leaves the session
    READY and appends exactly one system message, the one that announces
    the end of the call.  In any other state it changes nothing. *)
Theorem end_voice_call (now : string) (o : option JsError) (st : State) :
  Reachable st ->
  (sessionState st = LISTENING ->
   endVoiceCall now o st =
     (mkState (config st) (isOpen st) false (vapiClient st) (vapiReady st)
        (messages st ++ [mkMessage callEndedText system now])
        (vapiSDK st)
        (sdkCalls st ++ (if exposesStop st then [Stop] else []))
        (timers st),
      Normal tt) /\
   sessionState (exec (endVoiceCall now o) st) = READY) /\
  (sessionState st <> LISTENING -> endVoiceCall now o st = (st, Normal tt)).
Proof.
  intros HR. apply Reachable_Consistent in HR. pose proof (Consistent_ready st HR) as Hready.
  destruct HR as [H1 [H2 H3]]. unfold sessionState. split.
  - destruct (isListening st) eqn:E; [|destruct (ready st); discriminate].
    intros _. unfold exec. rewrite (endVoiceCall_listening _ _ _ E). split.
    + unfold exposesStop. destruct (vapiSDK st) as [sdk|]; reflexivity.
    + cbn [fst isListening]. unfold ready in *. cbn [vapiReady vapiClient].
      rewrite Hready, (H2 eq_refl). reflexivity.
  - destruct (isListening st) eqn:E; [congruence|].
    intros _. apply endVoiceCall_idle, E.
Qed.

(** *** The error rules *)

(** [errorKind] on a message text, the empty text included: the chain of
    substring tests of [getErrorMessage]. *)
Lemma errorKind_chain (m : string) :
  errorKind (mkError m) =
    if includes m "permission" || includes m "Permission" then PermissionDenied
    else if includes m "secure" || includes m "HTTPS" then InsecureTransport
    else if includes m "assistant" then AssistantMisconfigured
    else Unknown.
Proof. destruct m as [|c m]; reflexivity. Qed.

(** The text [getErrorMessage] returns is the text of the kind. *)
Lemma getErrorMessage_kind (e : JsError) :
  getErrorMessage e =
    match errorKind e with
    | PermissionDenied => permissionText
    | InsecureTransport => httpsText
    | AssistantMisconfigured => assistantText
    | Unknown =>
        match message e with
        | Some m => if truthy m then "Error: " +:+ m else failedText
        | None => failedText
        end
    end.
Proof.
  destruct e as [[m|]]; [|reflexivity].
  unfold getErrorMessage, errorKind. cbn [message].
  destruct (truthy m); [|reflexivity]. case_includes.
Qed.

(** C5 (as amended).  For every failure text the error rules are tried in
    order, on the text as it is (matching is case-sensitive): if it
    contains "permission" or "Permission" the result is PermissionDenied;
    otherwise if it contains "secure" or "HTTPS" the result is
    InsecureTransport; otherwise if it contains "assistant" the result is
    AssistantMisconfigured; otherwise, and when the error has no message,
    the result is Unknown.  The text [getErrorMessage] returns is the text
    of that kind. *)
Theorem error_rules (m : string) :
  errorKind (mkError m) = Rules.firstMatch Rules.errorRules Unknown m /\
  (Occurs "permission" m \/ Occurs "Permission" m ->
   errorKind (mkError m) = PermissionDenied) /\
  (~ Occurs "permission" m -> ~ Occurs "Permission" m ->
   Occurs "secure" m \/ Occurs "HTTPS" m ->
   errorKind (mkError m) = InsecureTransport) /\
  (~ Occurs "permission" m -> ~ Occurs "Permission" m ->
   ~ Occurs "secure" m -> ~ Occurs "HTTPS" m ->
   Occurs "assistant" m ->
   errorKind (mkError m) = AssistantMisconfigured) /\
  (~ Occurs "permission" m -> ~ Occurs "Permission" m ->
   ~ Occurs "secure" m -> ~ Occurs "HTTPS" m ->
   ~ Occurs "assistant" m ->
   errorKind (mkError m) = Unknown) /\
  errorKind (Error None) = Unknown /\
  getErrorMessage (mkError m) =
    match errorKind (mkError m) with
    | PermissionDenied => permissionText
    | InsecureTransport => httpsText
    | AssistantMisconfigured => assistantText
    | Unknown => if truthy m then "Error: " +:+ m else failedText
    end.
Proof.
  rewrite (getErrorMessage_kind (mkError m)). cbn [message mkError].
  rewrite errorKind_chain. unfold Rules.errorRules.
  cbn [Rules.firstMatch existsb]. rewrite !orb_false_r.
  rewrite <- !includes_spec, !not_true_iff_false.
  repeat split; try reflexivity.
  - intros [-> | ->]; [reflexivity|]. rewrite orb_true_r. reflexivity.
  - intros -> -> [-> | ->]; [reflexivity|]. cbn. rewrite orb_true_r. reflexivity.
  - intros -> -> -> -> ->. reflexivity.
  - intros -> -> -> -> ->. reflexivity.
Qed.

(** The second rule, on a text with "HTTPS" in upper case. *)
Lemma error_rules_witness :
  errorKind (mkError "Voice calls need HTTPS") = InsecureTransport.
Proof.
  apply (error_rules "Voice calls need HTTPS").
  - apply includes_false. reflexivity.
  - apply includes_false. reflexivity.
  - right. apply includes_spec. reflexivity.
Defined.

(** C5, counterexample.  A text with "https" in lower case is
    InsecureTransport by the rules as the specification words them, and is
    not for the code, which looks for "HTTPS". *)
Lemma lower_case_https :
  Spec.classifyError "Voice calls need https" = InsecureTransport /\
  errorKind (mkError "Voice calls need https") <> InsecureTransport.
Proof. split; [reflexivity|]. vm_compute. discriminate. Qed.

(** *** Schedules and examples *)

Lemma step_sendText (now input : string) (st : State) :
  truthy (trim input) = true ->
  step (SendTextMessage now (Some input)) st =
  mkState (config st) (isOpen st) (isListening st) (vapiClient st) (vapiReady st)
    (messages st ++ [mkMessage (trim input) user now; mkMessage typingText ai now])
    (vapiSDK st) (sdkCalls st) (S (timers st)).
Proof. intros H. cbn [step]. unfold exec. by rewrite sendTextMessage_run. Qed.

Lemma step_sendText_empty (now input : string) (st : State) :
  whiteSpaceOnly input = true -> step (SendTextMessage now (Some input)) st = st.
Proof. intros H. cbn [step]. unfold exec. by rewrite sendTextMessage_empty. Qed.


(** "hello" is sent in a widget that was just built. *)
Lemma one_indicator_when_unanswered_witness :
  truthy (trim "hello") = true /\
  typingCount (messages Examples.widget) = 0 /\
  typingCount
    (messages (exec (sendTextMessage "10:02 AM" (Some "hello")) Examples.widget)) = 1.
Proof.
  split; [reflexivity|]. split; [reflexivity|].
  apply (one_indicator_when_unanswered "10:02 AM" "10:03 AM" "hello" Examples.widget);
    reflexivity.
Defined.

(** C1, counterexample.  Two texts sent one after the other, before the
    reply timer of the first has fired: the log holds two typing
    indicators, not one. *)
Lemma two_indicators :
  typingCount
    (messages
       (run [SendTextMessage "10:02 AM" (Some "Find flights to Dubai");
             SendTextMessage "10:02 AM" (Some "and a hotel")]
            Examples.widget)) <> 1.
Proof. vm_compute. discriminate. Qed.

Lemma Reachable_run (evs : list Event) (c : ConfigArg) (sdk : option Sdk) (now : string) :
  Reachable (run evs (construct c sdk now)).
Proof. exists c, sdk, now, evs. reflexivity. Qed.

(** A call is started in a widget that was just built on a page with the
    SDK. *)
Lemma start_voice_call_witness :
  Reachable Examples.widget /\
  ready Examples.widget = true /\
  sessionState (exec (startVoiceCall "10:01 AM" None) Examples.widget) = LISTENING.
Proof.
  split; [apply (Reachable_run []) |]. split; [reflexivity|].
  apply (start_voice_call "10:01 AM" Examples.widget).
  - apply (Reachable_run []).
  - reflexivity.
Defined.

(** A call that the SDK rejects: the widget is ready and [run] throws;
    after [startVoiceCall] the session is not LISTENING. *)
Lemma start_rejected_by_sdk :
  ready Examples.widget = true /\
  sessionState
    (exec (startVoiceCall "10:01 AM" (Some (mkError "assistant not published")))
          Examples.widget) <> LISTENING.
Proof. split; [reflexivity|]. vm_compute. discriminate. Qed.

(** The call of a listening widget is ended. *)
Lemma end_voice_call_witness :
  Reachable Examples.listening /\
  sessionState Examples.listening = LISTENING /\
  sessionState (exec (endVoiceCall "10:05 AM" None) Examples.listening) = READY.
Proof.
  split; [apply Reachable_run|]. split; [reflexivity|].
  apply (end_voice_call "10:05 AM" None Examples.listening).
  - apply Reachable_run.
  - reflexivity.
Defined.

(** C9, counterexample.  The SDK object of the page has [run] and no
    [stop].  The widget built on it is ready, a call is started and the
    session is LISTENING; [endVoiceCall] then leaves the session READY
    and announces the end of the call, but it has made no call to the
    SDK: the SDK call is not stopped. *)
Lemma end_without_stop :
  Reachable MoreExamples.unstoppable /\
  sessionState MoreExamples.unstoppable = LISTENING /\
  sessionState (exec (endVoiceCall "10:05 AM" None) MoreExamples.unstoppable) = READY /\
  sdkCalls (exec (endVoiceCall "10:05 AM" None) MoreExamples.unstoppable) =
    sdkCalls MoreExamples.unstoppable /\
  ~ In Stop (sdkCalls (exec (endVoiceCall "10:05 AM" None) MoreExamples.unstoppable)).
Proof.
  split; [apply Reachable_run|]. split; [reflexivity|]. split; [reflexivity|].
  split; [reflexivity|]. cbn. intros [H|[]]. discriminate.
Qed.

End WidgetProps.

(** ** Both front ends *)

Import Js JsString.




(** C10.  An utterance that is empty or holds only white space (the white
    space [trim] removes: ASCII or not) is ignored by both text entry
    points: [sendMessage] of the chat interface and [sendTextMessage] of
    the widget return at once and leave the whole state as it was: the
    log, the typing indicator, the saved copy, the pending requests and
    the timers. *)
Theorem blank_utterance_is_ignored (now input : string) :
  Blank input ->
  (forall st : ChatInterface.State,
     ChatInterface.sendMessage_call now input st = (st, Normal tt) /\
     ChatInterface.step (ChatInterface.SendMessage now input) st = st) /\
  (forall st : Widget.State,
     Widget.sendTextMessage now (Some input) st = (st, Normal tt) /\
     Widget.step (Widget.SendTextMessage now (Some input)) st = st).
Proof.
  intros H. apply Blank_whiteSpaceOnly in H. split; intros st; split.
  - apply ChatProps.sendMessage_call_empty, H.
  - apply ChatProps.step_send_empty, H.
  - apply WidgetProps.sendTextMessage_empty, H.
  - apply WidgetProps.step_sendText_empty, H.
Qed.

(** A space, a no-break space, a tab and a line separator are sent to each
    front end. *)
Lemma blank_utterance_is_ignored_witness :
  Blank (encode [32; 160; 9; 8232]%N) /\
  ChatInterface.step (ChatInterface.SendMessage "10:00 AM" (encode [32; 160; 9; 8232]%N))
    Examples.chat = Examples.chat /\
  Widget.step (Widget.SendTextMessage "10:00 AM" (Some (encode [32; 160; 9; 8232]%N)))
    Examples.widget = Examples.widget.
Proof.
  assert (H : Blank (encode [32; 160; 9; 8232]%N)).
  { exists [32; 160; 9; 8232]%N. split; [|reflexivity].
    repeat (constructor; [cbn; auto 30|]). constructor. }
  split; [exact H|]. split.
  - apply (blank_utterance_is_ignored "10:00 AM" _ H).
  - apply (blank_utterance_is_ignored "10:00 AM" _ H).
Defined.

(** * Further properties *)

(** ** The voice widget: readiness, calls and the log *)

Module WidgetMore.
Import Js JsString Widget WidgetProps Measures.

Lemma startVoiceCall_frame (now : string) (o : option JsError) (st : State) :
  exists (l : bool) (m : Message) (calls : list SdkCall),
    startVoiceCall now o st =
    (mkState (config st) (isOpen st) l (vapiClient st) (vapiReady st)
       (messages st ++ [m]) (vapiSDK st) (sdkCalls st ++ calls) (timers st),
     Normal tt).
Proof.
  destruct (ready st) eqn:Hr.
  - unfold startVoiceCall, bind, get. rewrite Hr.
    destruct st as [[a k i p q] op l cl r msgs [[[] hs]|] calls n];
      destruct k as [s|[e'|]]; destruct o as [e|];
      widget_run; cbn [substringThrows vapiPublicKey]; eexists _, _, _; try reflexivity.
    all: rewrite app_nil_r; reflexivity.
  - rewrite (startVoiceCall_not_ready _ _ _ Hr).
    eexists _, _, []. rewrite app_nil_r. reflexivity.
Qed.

Lemma step_quiet (ev : Event) (st : State) :
  quiet ev = true ->
  exists (o : bool) (ms : list Message) (n : nat),
    step ev st =
    mkState (config st) o (isListening st) (vapiClient st) (vapiReady st)
      ms (vapiSDK st) (sdkCalls st) n.
Proof.
  destruct ev as [now|now o|now o| |now [input|]|now]; try discriminate; intros _;
    cbn [step]; unfold exec.
  - rewrite togglePanel_run. eauto.
  - rewrite clearMessages_run. eauto.
  - destruct (truthy (trim input)) eqn:E.
    + rewrite (sendTextMessage_run _ _ _ E). eauto.
    + rewrite sendTextMessage_empty by (by apply trim_empty).
      exists (isOpen st), (messages st), (timers st). by destruct st.
  - exists (isOpen st), (messages st), (timers st). by destruct st.
  - destruct (timers st) as [|n] eqn:E.
    + exists (isOpen st), (messages st), 0. rewrite <- E. by destruct st.
    + change (fst ((setTimers n ;;; replyTimer now) st)) with
        (exec (replyTimer now)
           (mkState (config st) (isOpen st) (isListening st) (vapiClient st) (vapiReady st)
              (messages st) (vapiSDK st) (sdkCalls st) n)).
      match goal with |- context [exec _ ?s] => destruct (replyTimer_frame now s) as [ms' ->] end.
      eauto.
Qed.

Lemma endVoiceCall_frame (now : string) (o : option JsError) (st : State) :
  exists (l : bool) (ms : list Message) (calls : list SdkCall),
    endVoiceCall now o st =
    (mkState (config st) (isOpen st) l (vapiClient st) (vapiReady st)
       ms (vapiSDK st) (sdkCalls st ++ calls) (timers st),
     Normal tt).
Proof.
  destruct (isListening st) eqn:E.
  - rewrite (endVoiceCall_listening _ _ _ E). eauto.
  - rewrite (endVoiceCall_idle _ _ _ E).
    exists (isListening st), (messages st), []. rewrite app_nil_r. by destruct st.
Qed.

(** No event changes the configuration, the client, the readiness flag or
    the SDK object of the page. *)
Lemma step_shape (ev : Event) (st : State) :
  exists (o l : bool) (ms : list Message) (calls : list SdkCall) (n : nat),
    step ev st =
    mkState (config st) o l (vapiClient st) (vapiReady st) ms (vapiSDK st) calls n.
Proof.
  destruct (quiet ev) eqn:Q.
  - destruct (step_quiet ev st Q) as [o [ms [n ->]]]. eauto 10.
  - destruct ev as [now|now o|now o| |now input|now]; try discriminate;
      cbn [step]; unfold exec.
    + destruct (startVoiceCall_frame now o st) as [l [m [calls ->]]]. eauto 10.
    + destruct (endVoiceCall_frame now o st) as [l [ms [calls ->]]]. eauto 10.
Qed.

(** The state the constructor leaves.  When the prefix of the public key
    cannot be taken, [initVapi] has set the client before it throws, and
    its handler resets the flag only. *)
Lemma construct_cases (c : ConfigArg) (sdk : option Sdk) (now : string) :
  construct c sdk now =
    if usable sdk then
      if prefixable (configOf c)
      then mkState (configOf c) false false sdk true [] sdk [] 0
      else
        mkState (configOf c) false false sdk false
          [mkMessage ("⚠️ " +:+ "Voice service unavailable. Please refresh the page.")
             system now]
          sdk [] 0
    else
      mkState (configOf c) false false None false
        [mkMessage ("⚠️ " +:+ "Voice service unavailable. Please refresh the page.")
           system now]
        sdk [] 0.
Proof.
  unfold construct, prefixable. generalize (configOf c). intros [a k i p q].
  destruct sdk as [[[] hs]|]; destruct k as [s|[e|]]; reflexivity.
Qed.

(** X1.  Whether the widget is ready is settled by the constructor and
    never changes: after any events, the widget is ready exactly when the
    page had an SDK object with a [run] method when the widget was built
    and the prefix of the configured public key could be taken (as it can
    of every string).  Its client is the SDK object whenever that object
    has [run], also when the widget is not ready; and no event changes
    the configuration or the SDK object. *)
Theorem readiness_is_fixed (c : ConfigArg) (sdk : option Sdk) (now : string)
  (evs : list Event) :
  let st := run evs (construct c sdk now) in
  vapiReady st = usable sdk && prefixable (configOf c) /\
  ready st = usable sdk && prefixable (configOf c) /\
  vapiClient st = (if usable sdk then sdk else None) /\
  vapiSDK st = sdk /\
  config st = configOf c.
Proof.
  cbv zeta.
  assert (H0 : let st := construct c sdk now in
               vapiReady st = usable sdk && prefixable (configOf c) /\
               vapiClient st = (if usable sdk then sdk else None) /\
               vapiSDK st = sdk /\ config st = configOf c).
  { rewrite construct_cases.
    destruct (usable sdk); [destruct (prefixable (configOf c))|]; cbn; auto. }
  cbv zeta in H0. revert H0. generalize (construct c sdk now).
  induction evs as [|ev evs IH]; intros st (H1 & H2 & H3 & H4).
  - cbn [run fold_left]. repeat split; try assumption.
    unfold ready. rewrite H1, H2. unfold usable. destruct sdk as [s|]; [|reflexivity].
    destruct (hasRun s); [|reflexivity]. cbn. apply andb_true_r.
  - rewrite widget_run_cons. apply IH.
    destruct (step_shape ev st) as (o & l & ms & calls & n & ->). cbn. auto.
Qed.

(** A widget built with a number as public key on a page with the SDK: it
    has a client and is not ready, and a call cannot be started. *)
Lemma readiness_is_fixed_witness :
  vapiClient (construct MoreExamples.numericKey (Some Examples.sdk) "10:00 AM") =
    Some Examples.sdk /\
  ready
    (run [StartVoiceCall "10:01 AM" None]
       (construct MoreExamples.numericKey (Some Examples.sdk) "10:00 AM")) = false.
Proof.
  split; [reflexivity|].
  apply (readiness_is_fixed MoreExamples.numericKey (Some Examples.sdk) "10:00 AM"
           [StartVoiceCall "10:01 AM" None]).
Defined.

(** X2.  A widget built on a page without a usable SDK never listens and
    never calls the SDK, whatever is done with it. *)
Theorem never_listens_without_sdk (c : ConfigArg) (sdk : option Sdk) (now : string)
  (evs : list Event) :
  usable sdk = false ->
  let st := run evs (construct c sdk now) in
  isListening st = false /\
  sdkCalls st = [] /\
  sessionState st = NOT_READY.
Proof.
  intros Hu. cbv zeta.
  assert (H0 : let st := construct c sdk now in
               ready st = false /\ isListening st = false /\ sdkCalls st = []).
  { rewrite construct_cases, Hu. cbn. auto. }
  cbv zeta in H0. revert H0. generalize (construct c sdk now).
  induction evs as [|ev evs IH]; intros st (H1 & H2 & H3).
  - cbn [run fold_left]. unfold sessionState. rewrite H1, H2. auto.
  - rewrite widget_run_cons. apply IH.
    destruct (quiet ev) eqn:Q.
    + destruct (step_quiet ev st Q) as (o & ms & n & ->). cbn. unfold ready in *. auto.
    + destruct ev as [now'|now' o|now' o| |now' input|now']; try discriminate;
        cbn [step]; unfold exec.
      * rewrite (startVoiceCall_not_ready _ _ _ H1). cbn. unfold ready in *. auto.
      * rewrite (endVoiceCall_idle _ _ _ H2). cbn. auto.
Qed.

(** *** The calls made to the SDK *)

Lemma runCount_app (a b : list SdkCall) : runCount (a ++ b) = runCount a + runCount b.
Proof. unfold runCount. by rewrite filter_app, length_app. Qed.

Lemma stopCount_app (a b : list SdkCall) : stopCount (a ++ b) = stopCount a + stopCount b.
Proof. unfold stopCount. by rewrite filter_app, length_app. Qed.

Lemma runCount_run (calls : list SdkCall) (k a : Value) :
  runCount (calls ++ [Run k a]) = S (runCount calls).
Proof. rewrite runCount_app. change (runCount [Run k a]) with 1. lia. Qed.

Lemma stopCount_run (calls : list SdkCall) (k a : Value) :
  stopCount (calls ++ [Run k a]) = stopCount calls.
Proof. rewrite stopCount_app. change (stopCount [Run k a]) with 0. lia. Qed.

Lemma runCount_stop (calls : list SdkCall) : runCount (calls ++ [Stop]) = runCount calls.
Proof. rewrite runCount_app. change (runCount [Stop]) with 0. lia. Qed.

Lemma stopCount_stop (calls : list SdkCall) :
  stopCount (calls ++ [Stop]) = S (stopCount calls).
Proof. rewrite stopCount_app. change (stopCount [Stop]) with 1. lia. Qed.

Lemma step_Accounted (ev : Event) (st : State) :
  Consistent st -> Accounted st -> Accounted (step ev st).
Proof.
  intros HC [Hn Hk]. pose proof (Consistent_ready st HC) as Hready.
  destruct HC as [H1 [H2 H3]].
  destruct (quiet ev) eqn:Q.
  { destruct (step_quiet ev st Q) as (o & ms & n & ->). split; assumption. }
  destruct ev as [now|now o|now o| |now input|now]; try discriminate;
    cbn [step]; unfold exec.
  - destruct (vapiReady st) eqn:E.
    + destruct (H1 eq_refl) as [sdk [Hs [Hr Hc]]]. destruct o as [e|].
      * rewrite (startVoiceCall_rejected _ _ _ sdk Hready Hs Hr (H3 eq_refl)).
        cbn [fst]. split.
        -- cbn [sdkCalls isListening]. rewrite runCount_run, stopCount_run.
           destruct (isListening st); lia.
        -- cbn [sdkCalls config]. apply Forall_app. split; [exact Hk|].
           constructor; [reflexivity|constructor].
      * rewrite (startVoiceCall_started _ _ sdk Hready Hs Hr (H3 eq_refl)).
        cbn [fst]. split.
        -- cbn [sdkCalls isListening]. rewrite runCount_run, stopCount_run.
           destruct (isListening st); lia.
        -- cbn [sdkCalls config]. apply Forall_app. split; [exact Hk|].
           constructor; [reflexivity|constructor].
    + rewrite (startVoiceCall_not_ready _ _ _ Hready). split; assumption.
  - destruct (isListening st) eqn:E.
    + rewrite (endVoiceCall_listening _ _ _ E). cbn [fst]. split.
      * cbn [sdkCalls isListening].
        destruct (vapiSDK st) as [[hr []]|];
          rewrite ?runCount_stop, ?stopCount_stop, ?app_nil_r; lia.
      * cbn [sdkCalls config]. apply Forall_app. split; [exact Hk|].
        destruct (vapiSDK st) as [[hr []]|]; repeat constructor; discriminate.
    + rewrite (endVoiceCall_idle _ _ _ E). cbn [fst]. split; [by rewrite E|exact Hk].
Qed.

(** X3.  In every state of a widget the calls made to the SDK add up:
    counting the call under way, [stop] was called no more often than
    [run] (no call is stopped that was not started), and every [run] got
    the configured public key and assistant id. *)
Theorem sdk_calls_add_up (st : State) :
  Reachable st ->
  stopCount (sdkCalls st) + (if isListening st then 1 else 0) <= runCount (sdkCalls st) /\
  Forall (fun call =>
            isRun call = true ->
            call = Run (vapiPublicKey (config st)) (vapiAssistantId (config st)))
         (sdkCalls st).
Proof.
  intros [c [sdk [now [evs ->]]]].
  assert (H0 : Consistent (construct c sdk now) /\ Accounted (construct c sdk now)).
  { split; [apply construct_Consistent|].
    rewrite construct_cases.
    destruct (usable sdk); [destruct (prefixable (configOf c))|]; split; cbn; auto. }
  revert H0. generalize (construct c sdk now).
  induction evs as [|ev evs IH]; intros st [HC HA]; [exact HA|].
  rewrite widget_run_cons. apply IH. split.
  - apply step_Consistent, HC.
  - apply step_Accounted; assumption.
Qed.

(** *** What stays in the log *)

Lemma replyTimer_keeps (now : string) (st : State) (P : list Message) (t : Message)
  (tail : list Message) :
  messages st = P ++ t :: tail ->
  exists (t' : Message) (tail' : list Message),
    messages (exec (replyTimer now) st) = P ++ t' :: tail'.
Proof.
  intros H. unfold exec.
  destruct tail as [|x tail0 _] using rev_ind.
  - destruct (String.eqb_spec (text t) typingText) as [Ht|Ht].
    + rewrite (replyTimer_typing _ _ P t H Ht). cbn. eauto.
    + rewrite (replyTimer_other _ _ P t H Ht). cbn. rewrite H, <- app_assoc. cbn. eauto.
  - assert (H' : messages st = (P ++ t :: tail0) ++ [x]).
    { rewrite H, <- app_assoc. reflexivity. }
    destruct (String.eqb_spec (text x) typingText) as [Ht|Ht].
    + rewrite (replyTimer_typing _ _ _ x H' Ht). cbn. rewrite <- app_assoc. cbn. eauto.
    + rewrite (replyTimer_other _ _ _ x H' Ht). cbn. rewrite H, <- app_assoc. cbn. eauto.
Qed.

Lemma step_keeps (ev : Event) (st : State) (P : list Message) (t : Message)
  (tail : list Message) :
  ev <> ClearMessages ->
  messages st = P ++ t :: tail ->
  exists (t' : Message) (tail' : list Message),
    messages (step ev st) = P ++ t' :: tail'.
Proof.
  intros Hev H.
  assert (Happ : forall extra, exists t' tail', messages st ++ extra = P ++ t' :: tail').
  { intros extra. rewrite H, <- app_assoc. cbn. eauto. }
  destruct ev as [now|now o|now o| |now [input|]|now]; cbn [step]; unfold exec.
  - rewrite togglePanel_run. cbn [fst messages]. apply Happ.
  - destruct (startVoiceCall_frame now o st) as [l [m [calls ->]]]. cbn [fst messages].
    apply Happ.
  - destruct (isListening st) eqn:E.
    + rewrite (endVoiceCall_listening _ _ _ E). cbn [fst messages]. apply Happ.
    + rewrite (endVoiceCall_idle _ _ _ E). cbn [fst]. eauto.
  - congruence.
  - destruct (truthy (trim input)) eqn:E.
    + rewrite (sendTextMessage_run _ _ _ E). cbn [fst messages]. apply Happ.
    + rewrite sendTextMessage_empty by (by apply trim_empty). cbn [fst]. eauto.
  - cbn [fst]. eauto.
  - destruct (timers st) as [|n] eqn:E; [eauto|].
    change (fst ((setTimers n ;;; replyTimer now) st)) with
      (exec (replyTimer now)
         (mkState (config st) (isOpen st) (isListening st) (vapiClient st) (vapiReady st)
            (messages st) (vapiSDK st) (sdkCalls st) n)).
    apply (replyTimer_keeps now _ P t tail). exact H.
Qed.

(** X4.  Only the last message of the log is ever taken out: as long as the
    log is not cleared, the messages before the last one stay where they
    are, whatever else happens.  So a typing indicator that another
    message has followed is never removed. *)
Theorem buried_messages_stay (evs : list Event) (st : State) (P : list Message)
  (t : Message) (tail : list Message) :
  Forall (fun ev => ev <> ClearMessages) evs ->
  messages st = P ++ t :: tail ->
  exists (t' : Message) (tail' : list Message),
    messages (run evs st) = P ++ t' :: tail'.
Proof.
  intros Hevs. revert st t tail.
  induction Hevs as [|ev evs Hev _ IH]; intros st t tail H; [cbn; eauto|].
  rewrite widget_run_cons.
  destruct (step_keeps ev st P t tail Hev H) as [t' [tail' H']].
  apply (IH _ t' tail' H').
Qed.

(** X5.  When the log is cleared while a reply is pending, the reply timer
    finds no last message: its callback throws, no reply is appended and
    the log stays empty. *)
Theorem cleared_reply_is_lost (now now' input : string) (st : State) :
  truthy (trim input) = true ->
  let st1 := run [SendTextMessage now (Some input); ClearMessages] st in
  completion (replyTimer now') st1 = Throw undefinedText /\
  messages (step (ReplyTimerFires now') st1) = [] /\
  timers (step (ReplyTimerFires now') st1) = timers st.
Proof.
  intros H. cbv zeta. rewrite !widget_run_cons. cbn [run fold_left].
  rewrite (step_sendText _ _ _ H). cbn [step]. unfold exec at 2.
  rewrite clearMessages_run. cbn [fst config isOpen isListening vapiClient vapiReady
    messages vapiSDK sdkCalls timers].
  split; [reflexivity|]. split; reflexivity.
Qed.

(** X6.  Toggling the panel twice gives back the state it started from,
    but for the welcome message: it is appended, once, exactly when the
    log was empty, at the toggle that opened the panel, and its text says
    whether the voice service is ready. *)
Theorem open_and_close (now1 now2 : string) (st : State) :
  exec (togglePanel now2) (exec (togglePanel now1) st) =
  mkState (config st) (isOpen st) (isListening st) (vapiClient st) (vapiReady st)
    (messages st ++
     (if length (messages st) =? 0
      then [mkMessage (if vapiReady st then welcomeReady else welcomeLoading) ai
              (if isOpen st then now2 else now1)]
      else []))
    (vapiSDK st) (sdkCalls st) (timers st).
Proof.
  unfold exec. rewrite togglePanel_run. cbn [fst]. rewrite togglePanel_run.
  destruct st as [c o l cl r ms sdk calls tm].
  cbn [fst config isOpen isListening vapiClient vapiReady messages vapiSDK sdkCalls timers].
  rewrite negb_involutive.
  destruct ms as [|m ms]; destruct o; cbn; rewrite ?app_nil_r; reflexivity.
Qed.

(** X7.  Starting a call and ending it, in a widget that is ready and
    whose SDK has [stop], gives back the state it started from with the
    session not listening, the two announcements appended to the log and
    [run] then [stop] appended to the calls made, whether or not [stop]
    threw. *)
Theorem call_round_trip (now now' : string) (o : option JsError) (st : State) :
  Reachable st ->
  ready st = true ->
  exposesStop st = true ->
  run [StartVoiceCall now None; EndVoiceCall now' o] st =
  mkState (config st) (isOpen st) false (vapiClient st) (vapiReady st)
    (messages st ++ [mkMessage startedText system now; mkMessage callEndedText system now'])
    (vapiSDK st)
    (sdkCalls st ++ [Run (vapiPublicKey (config st)) (vapiAssistantId (config st)); Stop])
    (timers st).
Proof.
  intros HR Hr Hs. apply Reachable_Consistent in HR.
  pose proof (Consistent_ready st HR) as Hready. destruct HR as [H1 [H2 H3]].
  rewrite Hready in Hr. destruct (H1 Hr) as [sdk [Hsdk [Hrun Hc]]].
  pose proof (H3 Hr) as Hkey. rewrite <- Hready in Hr.
  rewrite !widget_run_cons. cbn [run fold_left step]. unfold exec.
  rewrite (startVoiceCall_started _ _ sdk Hr Hsdk Hrun Hkey). cbn [fst].
  rewrite endVoiceCall_listening by reflexivity.
  cbn [fst config isOpen isListening vapiClient vapiReady messages vapiSDK sdkCalls timers].
  unfold exposesStop in Hs. rewrite Hsdk in *. rewrite Hs, <- !app_assoc. reflexivity.
Qed.

(** *** Examples *)

(** A widget without the SDK in which a call is tried and a text sent. *)
Lemma never_listens_without_sdk_witness :
  usable None = false /\
  isListening
    (run [StartVoiceCall "10:01 AM" None; SendTextMessage "10:02 AM" (Some "hello")]
         MoreExamples.bare) = false.
Proof.
  split; [reflexivity|].
  apply (never_listens_without_sdk (mkConfigArg None None None None None) None "10:00 AM"
           [StartVoiceCall "10:01 AM" None; SendTextMessage "10:02 AM" (Some "hello")]).
  reflexivity.
Defined.

(** The widget of the examples during its first call. *)
Lemma sdk_calls_add_up_witness :
  Reachable Examples.listening /\
  stopCount (sdkCalls Examples.listening) + 1 <= runCount (sdkCalls Examples.listening).
Proof.
  split; [apply Reachable_run|].
  apply (sdk_calls_add_up Examples.listening). apply Reachable_run.
Defined.

(** Two texts sent one after the other, then both reply timers: the first
    typing indicator is still in the log. *)
Lemma buried_messages_stay_witness :
  Forall (fun ev => ev <> ClearMessages)
    [ReplyTimerFires "10:03 AM"; ReplyTimerFires "10:03 AM"] /\
  exists (t' : Message) (tail' : list Message),
    messages
      (run [ReplyTimerFires "10:03 AM"; ReplyTimerFires "10:03 AM"]
         (run [SendTextMessage "10:02 AM" (Some "Find flights to Dubai");
               SendTextMessage "10:02 AM" (Some "and a hotel")]
              Examples.widget)) =
    [mkMessage "Find flights to Dubai" user "10:02 AM";
     mkMessage typingText ai "10:02 AM"] ++ t' :: tail'.
Proof.
  assert (H : Forall (fun ev => ev <> ClearMessages)
                [ReplyTimerFires "10:03 AM"; ReplyTimerFires "10:03 AM"]).
  { repeat constructor; discriminate. }
  split; [exact H|].
  apply (buried_messages_stay _ _ _ (mkMessage "and a hotel" user "10:02 AM")
           [mkMessage typingText ai "10:02 AM"] H).
  reflexivity.
Defined.

(** "hello" is sent, the log is cleared, the timer fires. *)
Lemma cleared_reply_is_lost_witness :
  truthy (trim "hello") = true /\
  messages
    (step (ReplyTimerFires "10:03 AM")
       (run [SendTextMessage "10:02 AM" (Some "hello"); ClearMessages] Examples.widget)) = [].
Proof.
  split; [reflexivity|].
  apply (cleared_reply_is_lost "10:02 AM" "10:03 AM" "hello" Examples.widget). reflexivity.
Defined.

(** A first call in the widget of the examples. *)
Lemma call_round_trip_witness :
  Reachable Examples.widget /\
  ready Examples.widget = true /\
  exposesStop Examples.widget = true /\
  isListening
    (run [StartVoiceCall "10:01 AM" None; EndVoiceCall "10:05 AM" None] Examples.widget) =
  false.
Proof.
  assert (R : Reachable Examples.widget) by apply (Reachable_run []).
  split; [exact R|]. split; [reflexivity|]. split; [reflexivity|].
  rewrite (call_round_trip "10:01 AM" "10:05 AM" None Examples.widget R eq_refl eq_refl).
  reflexivity.
Defined.

End WidgetMore.

(** ** The voice widget: what the panel shows *)

Module PanelProps.
Import Js JsString Widget WidgetProps.

Ltac panel_run :=
  cbv [Panel.step Panel.togglePanel Panel.startVoiceCall Panel.endVoiceCall
       Panel.clearMessages Panel.sendTextMessage Panel.replyTimer Panel.onCallEnd
       Panel.showError Panel.addMessage Panel.showMessagesIfOpen Panel.showMessages
       Panel.updatePanelBody Panel.onWidget Panel.widget Panel.body
       step togglePanel startVoiceCall endVoiceCall clearMessages sendTextMessage replyTimer
       bind ret throw get modify tryCatch lift exec completion fst snd
       keyPrefix sdkRun sdkStop showError addMessage onCallEnd
       setOpen setListening setClient setReady setMessages logCall setTimers
       config isOpen isListening vapiClient vapiReady messages vapiSDK sdkCalls timers
       substringThrows vapiPublicKey negb].

(** The writes to the panel do not reach the state of the widget: without
    the body, the methods are those of [Widget]. *)
Lemma step_widget (ev : Event) (s : Panel.State) :
  Panel.widget (Panel.step ev s) = step ev (Panel.widget s).
Proof.
  destruct s as [[[a k i p q] op l cl r msgs sdk calls n] b].
  destruct ev as [now|now o|now o| |now [input|]|now].
  - panel_run. destruct op; cbn; destruct (length msgs =? 0); reflexivity.
  - panel_run. unfold ready. cbn [vapiReady vapiClient].
    destruct (r && bool_decide (is_Some cl)); cbn [negb]; [|destruct op; reflexivity].
    destruct k as [s|[e'|]]; destruct sdk as [[[] hs]|]; destruct o as [e|]; destruct op;
      reflexivity.
  - panel_run. destruct l; [|reflexivity].
    destruct sdk as [[hr []]|]; destruct o as [e|]; destruct op; reflexivity.
  - reflexivity.
  - panel_run. destruct (truthy (trim input)); [|reflexivity]. destruct op; reflexivity.
  - reflexivity.
  - panel_run. destruct n as [|n]; [reflexivity|].
    destruct (last msgs) as [m|]; [|reflexivity].
    destruct (String.eqb (text m) typingText); destruct op; reflexivity.
Qed.

(** X8.  While the panel is open, its body follows the log: if it shows
    the log as it is (or the initial template, the log being empty), it
    still does so after any method, whatever the method appended,
    removed or cleared. *)
Theorem open_panel_is_up_to_date (ev : Event) (s : Panel.State) :
  isOpen (Panel.widget s) = true ->
  Panel.UpToDate s ->
  Panel.UpToDate (Panel.step ev s).
Proof.
  destruct s as [[[a k i p q] op l cl r msgs sdk calls n] b]. cbn [Panel.widget isOpen].
  intros -> HU. unfold Panel.UpToDate in *. cbn [Panel.widget Panel.body messages] in HU.
  destruct ev as [now|now o|now o| |now [input|]|now].
  - panel_run. exact HU.
  - panel_run. unfold ready. cbn [vapiReady vapiClient].
    destruct (r && bool_decide (is_Some cl)); cbn [negb]; [|left; reflexivity].
    destruct k as [s|[e'|]]; destruct sdk as [[[] hs]|]; destruct o as [e|]; left;
      reflexivity.
  - panel_run. destruct l; [|exact HU].
    destruct sdk as [[hr []]|]; destruct o as [e|]; left; reflexivity.
  - right. split; reflexivity.
  - panel_run. destruct (truthy (trim input)); [left; reflexivity|exact HU].
  - exact HU.
  - panel_run. destruct n as [|n]; [exact HU|].
    destruct (last msgs) as [m|]; [|exact HU].
    destruct (String.eqb (text m) typingText); left; reflexivity.
Qed.

(** X9.  The listening template is written by [startVoiceCall], but with
    the panel open the announcement that follows overwrites it with the
    message list before the method returns: an open panel never shows it,
    whatever the outcome of the call.  With the panel closed, a call
    that starts leaves the listening template in the body. *)
Theorem listening_view_needs_closed_panel (now : string) (o : option JsError)
  (s : Panel.State) :
  (isOpen (Panel.widget s) = true ->
   Panel.body (Panel.step (StartVoiceCall now o) s) =
   Panel.MessageList (messages (Panel.widget (Panel.step (StartVoiceCall now o) s)))) /\
  (isOpen (Panel.widget s) = false ->
   Reachable (Panel.widget s) ->
   ready (Panel.widget s) = true ->
   Panel.body (Panel.step (StartVoiceCall now None) s) = Panel.ListeningState).
Proof.
  split.
  - destruct s as [[[a k i p q] op l cl r msgs sdk calls n] b]. cbn [Panel.widget isOpen].
    intros ->. panel_run. unfold ready. cbn [vapiReady vapiClient].
    destruct (r && bool_decide (is_Some cl)); cbn [negb]; [|reflexivity].
    destruct k as [s|[e'|]]; destruct sdk as [[[] hs]|]; destruct o as [e|]; reflexivity.
  - intros Hop HR Hr. apply Reachable_Consistent in HR.
    pose proof (Consistent_ready _ HR) as Hready. destruct HR as [H1 [_ H3]].
    rewrite Hready in Hr. destruct (H1 Hr) as [sdk [Hs [Hrun _]]].
    pose proof (H3 Hr) as Hkey. rewrite <- Hready in Hr.
    destruct s as [[[a k i p q] op l cl r msgs sdk' calls n] b].
    cbn [Panel.widget isOpen vapiSDK config vapiPublicKey] in *. subst op sdk'.
    destruct k as [s|[e'|]]; [|discriminate|];
      panel_run; rewrite Hr; cbn [negb]; rewrite Hrun; reflexivity.
Qed.

Lemma last_two {A : Type} (l : list A) (x y : A) : last (l ++ [x; y]) = Some y.
Proof. change [x; y] with ([x] ++ [y]). rewrite app_assoc. apply last_snoc. Qed.

Lemma removelast_two {A : Type} (l : list A) (x y : A) :
  removelast (l ++ [x; y]) = l ++ [x].
Proof. change [x; y] with ([x] ++ [y]). rewrite app_assoc. apply removelast_last. Qed.

(** X10.  Opening the panel does not render the log: [togglePanel] renders
    only through the welcome message, which needs an empty log.  So when
    a text is sent, the panel closed, the reply arrives and the panel is
    opened again, the body still shows the typing indicator in place of
    the reply that the log holds. *)
Theorem reopened_panel_is_stale (t1 t2 t3 t4 input : string) (s : Panel.State) :
  isOpen (Panel.widget s) = true ->
  truthy (trim input) = true ->
  let s' :=
    Panel.run [SendTextMessage t1 (Some input); TogglePanel t2;
               ReplyTimerFires t3; TogglePanel t4] s in
  isOpen (Panel.widget s') = true /\
  messages (Panel.widget s') =
    messages (Panel.widget s) ++
    [mkMessage (trim input) user t1; mkMessage receivedText ai t3] /\
  Panel.body s' =
    Panel.MessageList
      (messages (Panel.widget s) ++
       [mkMessage (trim input) user t1; mkMessage typingText ai t1]).
Proof.
  destruct s as [[c op l cl r msgs sdk calls n] b]. cbn [Panel.widget isOpen messages].
  intros -> Ht. cbv zeta. unfold Panel.run. cbn [fold_left].
  set (shown := msgs ++ [mkMessage (trim input) user t1; mkMessage typingText ai t1]).
  assert (E1 : Panel.step (SendTextMessage t1 (Some input))
                 (Panel.mkState (mkState c true l cl r msgs sdk calls n) b) =
               Panel.mkState (mkState c true l cl r shown sdk calls (S n))
                 (Panel.MessageList shown)).
  { panel_run. rewrite Ht. cbn [negb]. subst shown. rewrite <- app_assoc. reflexivity. }
  rewrite E1. clear E1.
  assert (E2 : Panel.step (TogglePanel t2)
                 (Panel.mkState (mkState c true l cl r shown sdk calls (S n))
                    (Panel.MessageList shown)) =
               Panel.mkState (mkState c false l cl r shown sdk calls (S n))
                 (Panel.MessageList shown)) by reflexivity.
  rewrite E2. clear E2.
  assert (E3 : Panel.step (ReplyTimerFires t3)
                 (Panel.mkState (mkState c false l cl r shown sdk calls (S n))
                    (Panel.MessageList shown)) =
               Panel.mkState
                 (mkState c false l cl r
                    (msgs ++ [mkMessage (trim input) user t1; mkMessage receivedText ai t3])
                    sdk calls n)
                 (Panel.MessageList shown)).
  { panel_run. subst shown. rewrite last_two, removelast_two. cbn.
    rewrite <- app_assoc. reflexivity. }
  rewrite E3. clear E3.
  panel_run. rewrite length_app. cbn [length].
  replace (length msgs + 2 =? 0) with false by (symmetry; apply Nat.eqb_neq; lia).
  cbn. auto.
Qed.

(** *** Examples *)

(** A text is sent in the open panel of the examples. *)
Lemma open_panel_is_up_to_date_witness :
  isOpen (Panel.widget MoreExamples.openPanel) = true /\
  Panel.UpToDate MoreExamples.openPanel /\
  Panel.UpToDate
    (Panel.step (SendTextMessage "10:02 AM" (Some "hello")) MoreExamples.openPanel).
Proof.
  assert (H : Panel.UpToDate MoreExamples.openPanel) by (left; reflexivity).
  split; [reflexivity|]. split; [exact H|].
  apply (open_panel_is_up_to_date (SendTextMessage "10:02 AM" (Some "hello"))
           MoreExamples.openPanel eq_refl H).
Defined.

(** A call is started with the panel closed. *)
Lemma listening_view_needs_closed_panel_witness :
  Panel.body
    (Panel.step (StartVoiceCall "10:01 AM" None)
       (Panel.construct (mkConfigArg None None None None None) (Some Examples.sdk)
          "10:00 AM")) =
  Panel.ListeningState.
Proof.
  apply (proj2 (listening_view_needs_closed_panel "10:01 AM" None
                  (Panel.construct (mkConfigArg None None None None None)
                     (Some Examples.sdk) "10:00 AM"))).
  - reflexivity.
  - apply (Reachable_run []).
  - reflexivity.
Defined.

(** "hello" is sent in the open panel of the examples, which is closed
    before the reply and opened after it. *)
Lemma reopened_panel_is_stale_witness :
  isOpen (Panel.widget MoreExamples.openPanel) = true /\
  truthy (trim "hello") = true /\
  Panel.body
    (Panel.run [SendTextMessage "10:02 AM" (Some "hello"); TogglePanel "10:02 AM";
                ReplyTimerFires "10:03 AM"; TogglePanel "10:04 AM"]
       MoreExamples.openPanel) =
  Panel.MessageList
    (messages (Panel.widget MoreExamples.openPanel) ++
     [mkMessage (trim "hello") user "10:02 AM"; mkMessage typingText ai "10:02 AM"]).
Proof.
  split; [reflexivity|]. split; [reflexivity|].
  apply (reopened_panel_is_stale "10:02 AM" "10:02 AM" "10:03 AM" "10:04 AM" "hello"
           MoreExamples.openPanel eq_refl eq_refl).
Defined.

End PanelProps.

(** ** The chat interface: requests, replies and reloads *)

Module ChatMore.
Import Js JsString ChatInterface ChatProps Tally.

Lemma userCount_user (ms : list Message) (c now : string) :
  userCount (ms ++ [mkMessage c user now]) = S (userCount ms).
Proof.
  unfold userCount. rewrite filter_app, length_app.
  change (length (filter _ [mkMessage c user now])) with 1. lia.
Qed.

Lemma userCount_ai (ms : list Message) (c now : string) :
  userCount (ms ++ [mkMessage c ai now]) = userCount ms.
Proof.
  unfold userCount. rewrite filter_app, length_app.
  change (length (filter _ [mkMessage c ai now])) with 0. lia.
Qed.

Lemma aiCount_user (ms : list Message) (c now : string) :
  aiCount (ms ++ [mkMessage c user now]) = aiCount ms.
Proof.
  unfold aiCount. rewrite filter_app, length_app.
  change (length (filter _ [mkMessage c user now])) with 0. lia.
Qed.

Lemma aiCount_ai (ms : list Message) (c now : string) :
  aiCount (ms ++ [mkMessage c ai now]) = S (aiCount ms).
Proof.
  unfold aiCount. rewrite filter_app, length_app.
  change (length (filter _ [mkMessage c ai now])) with 1. lia.
Qed.

Lemma step_tally (ev : Event) (st : State) :
  ev <> ClearChat true ->
  userCount (messages (step ev st)) + aiCount (messages st) + length (pending st) =
  userCount (messages st) + aiCount (messages (step ev st)) + length (pending (step ev st)).
Proof.
  intros Hev. destruct ev as [now input|i now o|[]|ms]; try congruence; try reflexivity.
  - destruct (truthy (trim input)) eqn:E.
    + rewrite (step_send _ _ _ E). cbn [messages pending].
      rewrite userCount_user, aiCount_user, length_app. cbn. lia.
    + rewrite step_send_empty by (by apply trim_empty). lia.
  - destruct (pending st !! i) as [message|] eqn:E.
    + rewrite (step_settle _ _ _ _ _ E). cbn [messages pending].
      rewrite userCount_ai, aiCount_ai.
      pose proof (lookup_lt_Some _ _ _ E) as Hlt.
      rewrite length_delete by eauto. lia.
    + rewrite (step_settle_none _ _ _ _ E). lia.
Qed.

(** X11.  Every message of the user gets one reply, or is still waiting for
    it: as long as the chat is not cleared, the messages of the user
    appended since any earlier state are as many as the replies appended
    since then plus the change in the number of requests under way. *)
Theorem one_reply_per_message (evs : list Event) (st : State) :
  Forall (fun ev => ev <> ClearChat true) evs ->
  userCount (messages (run evs st)) + aiCount (messages st) + length (pending st) =
  userCount (messages st) + aiCount (messages (run evs st)) + length (pending (run evs st)).
Proof.
  intros Hevs. revert st. induction Hevs as [|ev evs Hev _ IH]; intros st; [reflexivity|].
  rewrite run_cons. pose proof (step_tally ev st Hev). pose proof (IH (step ev st)). lia.
Qed.

(** X12.  The typing placeholder is one flag for all requests: when one of
    several requests under way settles, the flag is cleared and no
    placeholder is rendered, although another request is still pending. *)
Theorem indicator_off_while_pending (i : nat) (now : string) (o : FetchOutcome) (st : State) :
  i < length (pending st) ->
  2 <= length (pending st) ->
  let st' := step (FetchSettles i now o) st in
  isLoading st' = false /\
  pending st' <> [] /\
  Forall (fun b => ephemeral b = false) (renderMessages st').
Proof.
  intros Hi H2. cbv zeta. destruct (lookup_lt_is_Some_2 _ _ Hi) as [message E].
  rewrite (step_settle _ _ _ _ _ E). cbn [isLoading pending]. split; [reflexivity|]. split.
  - intros Hnil. apply (f_equal length) in Hnil. rewrite length_delete in Hnil by eauto.
    cbn in Hnil. lia.
  - unfold renderMessages. cbn [messages isLoading].
    destruct (messages st ++ _) as [|m ms]; [constructor|].
    rewrite app_nil_r. apply Forall_map. apply Forall_true. reflexivity.
Qed.

(** X13.  Clearing the chat does not cancel a request under way: the log
    and the rendering are empty after [clearChat], the request still
    pending; when it settles, its reply (or the apology) is appended to
    the cleared log, and saved. *)
Theorem clear_does_not_cancel (i : nat) (now message : string) (o : FetchOutcome)
  (st : State) :
  pending st !! i = Some message ->
  let st1 := step (ClearChat true) st in
  let st2 := step (FetchSettles i now o) st1 in
  messages st1 = [] /\
  pending st1 = pending st /\
  renderMessages st1 = [] /\
  messages st2 = [mkMessage (Schedule.replyContent message o) ai now] /\
  Saved st2.
Proof.
  intros E. cbv zeta.
  assert (H1 : step (ClearChat true) st =
               mkState [] (isLoading st) (<["chatMessages" := stringify []]> (localStorage st))
                 (pending st)) by reflexivity.
  rewrite H1. cbn [messages pending]. repeat split.
  - erewrite step_settle by exact E. reflexivity.
  - erewrite step_settle by exact E. apply Saved_synced. apply lookup_insert_eq.
Qed.

Lemma Occurs_trans (a b s : string) : Occurs a b -> Occurs b s -> Occurs a s.
Proof.
  intros [p1 [q1 ->]] [p2 [q2 ->]]. exists (p2 +:+ p1), (q1 +:+ q2).
  rewrite !append_assoc. reflexivity.
Qed.

(** X14.  The keyword tests are substring tests taken in order, so a
    keyword can be reached only when no earlier one is found in it or
    around it: a message with "booking" contains "book" and, when the
    search found a flight, gets the flight answer, not the booking one;
    and a message in which "hi" occurs anywhere (as in "this" or
    "something") gets the flight answer or the greeting, never the
    hotel, booking or fallback answer. *)
Theorem keyword_shadowing (userMessage : string) (data : option SearchData) :
  (Rules.hasFlights data = true ->
   Occurs "booking" (toLowerCase userMessage) ->
   classify userMessage data = Normal FlightSearch) /\
  (Occurs "hi" (toLowerCase userMessage) ->
   forall i : Intent,
     classify userMessage data = Normal i -> i = FlightSearch \/ i = Greeting).
Proof.
  split.
  - intros Hf Hb. rewrite classify_table, Hf. unfold Spec.classifyIntent.
    apply f_equal. apply firstMatch_hit. exists "book". split; [right; left; reflexivity|].
    apply (Occurs_trans "book" "booking"); [|exact Hb].
    exists "", "ing". reflexivity.
  - intros Hhi i Hc. apply includes_spec in Hhi. unfold classify in Hc.
    rewrite Hhi, orb_true_r in Hc.
    destruct (includes _ "flight" || includes _ "book");
      destruct data as [[[[|f fs]|]]|]; cbn in Hc; try discriminate;
      injection Hc as <-; auto.
Qed.

Lemma Occurs_here (x post : string) : Occurs x (x +:+ post).
Proof. exists "", post. reflexivity. Qed.

Lemma Occurs_skip (x p s : string) : Occurs x s -> Occurs x (p +:+ s).
Proof.
  intros [pre [post ->]]. exists (p +:+ pre), post. by rewrite append_assoc.
Qed.

Lemma flightText_mentions (count : nat) (flight : Flight) :
  Occurs (decimal count) (flightText count flight) /\
  Occurs (airline flight) (flightText count flight) /\
  Occurs (flight_number flight) (flightText count flight) /\
  Occurs (departure_time flight) (flightText count flight) /\
  Occurs (price flight) (flightText count flight).
Proof.
  unfold flightText. repeat split;
    repeat first [apply Occurs_here | apply Occurs_skip].
Qed.

(** X15.  A message about flights whose search succeeds with at least one
    flight: when the request settles, the log has grown by the message of
    the user and one reply, the placeholder is off, and the reply names
    the number of flights found and the airline and price of the first
    one. *)
Theorem flight_search_reply (now now' input : string) (flight : Flight)
  (others : list Flight) (st : State) :
  truthy (trim input) = true ->
  Occurs "flight" (toLowerCase (trim input)) \/ Occurs "book" (toLowerCase (trim input)) ->
  let found := Response true (JsonBody (Some (mkSearchData (Some (flight :: others))))) in
  let reply := flightText (S (length others)) flight in
  let st' := run [SendMessage now input; FetchSettles (length (pending st)) now' found] st in
  messages st' =
    messages st ++ [mkMessage (trim input) user now; mkMessage reply ai now'] /\
  isLoading st' = false /\
  pending st' = pending st /\
  Occurs (decimal (S (length others))) reply /\
  Occurs (airline flight) reply /\
  Occurs (price flight) reply.
Proof.
  intros Ht Hkw. cbv zeta. rewrite !run_cons. cbn [run fold_left].
  rewrite (step_send _ _ _ Ht).
  erewrite step_settle; cycle 1.
  { cbn [pending]. apply list_lookup_middle. reflexivity. }
  cbn [messages isLoading pending].
  assert (Hreply : Schedule.replyContent (trim input)
            (Response true (JsonBody (Some (mkSearchData (Some (flight :: others)))))) =
          flightText (S (length others)) flight).
  { unfold Schedule.replyContent, generateAIResponse.
    assert (Hk : includes (toLowerCase (trim input)) "flight" ||
                 includes (toLowerCase (trim input)) "book" = true).
    { apply orb_true_iff. destruct Hkw as [H|H]; [left|right]; by apply includes_spec. }
    rewrite Hk. reflexivity. }
  rewrite Hreply, <- app_assoc, delete_middle, app_nil_r.
  pose proof (flightText_mentions (S (length others)) flight) as (H1 & H2 & _ & _ & H5).
  repeat split; assumption.
Qed.

Lemma loadMessages_frame (st st' : State) :
  loadMessages st = (st', Normal tt) ->
  st' = mkState (messages st') (isLoading st) (localStorage st) (pending st).
Proof.
  destruct st as [ms l ls p]. unfold loadMessages, bind, get. cbn [localStorage].
  destruct (ls !! "chatMessages") as [saved|]; [destruct (truthy saved)|];
    [destruct (parse saved)|..]; cbv [setMessages modify throw];
    cbn [messages isLoading localStorage pending];
    intros H; inversion H; reflexivity.
Qed.

(** X16.  Reloading the page keeps the log and nothing else: whatever was
    done with a chat interface, a new one built on the storage it left
    comes up without error with the same messages in the same order, not
    loading, and with no request under way: the replies of the requests
    that were pending are lost. *)
Theorem reload_keeps_the_log_only (storage : gmap string string) (st0 : State)
  (evs : list Event) :
  construct storage = (st0, Normal tt) ->
  construct (localStorage (run evs st0)) =
  (mkState (messages (run evs st0)) false (localStorage (run evs st0)) [], Normal tt).
Proof.
  intros H. destruct (run_Saved evs st0 (construct_Saved _ _ H)) as [st' [H1 H2]].
  rewrite H1. pose proof (loadMessages_frame _ _ H1) as Hf.
  cbn [isLoading localStorage pending] in Hf. rewrite H2 in Hf. rewrite Hf. reflexivity.
Qed.

(** *** Examples *)

(** A greeting and its reply. *)
Lemma one_reply_per_message_witness :
  Forall (fun ev => ev <> ClearChat true)
    [SendMessage "10:00 AM" "hello"; FetchSettles 0 "10:01 AM" Examples.noFlights] /\
  userCount
    (messages
       (run [SendMessage "10:00 AM" "hello"; FetchSettles 0 "10:01 AM" Examples.noFlights]
          Examples.chat)) +
  aiCount (messages Examples.chat) + length (pending Examples.chat) =
  userCount (messages Examples.chat) +
  aiCount
    (messages
       (run [SendMessage "10:00 AM" "hello"; FetchSettles 0 "10:01 AM" Examples.noFlights]
          Examples.chat)) +
  length
    (pending
       (run [SendMessage "10:00 AM" "hello"; FetchSettles 0 "10:01 AM" Examples.noFlights]
          Examples.chat)).
Proof.
  assert (H : Forall (fun ev => ev <> ClearChat true)
                [SendMessage "10:00 AM" "hello";
                 FetchSettles 0 "10:01 AM" Examples.noFlights]).
  { repeat constructor; discriminate. }
  split; [exact H|].
  apply (one_reply_per_message _ Examples.chat H).
Defined.

(** Two requests are under way and the first one settles. *)
Lemma indicator_off_while_pending_witness :
  0 < length (pending MoreExamples.twoPending) /\
  2 <= length (pending MoreExamples.twoPending) /\
  isLoading (step (FetchSettles 0 "10:01 AM" Examples.noFlights) MoreExamples.twoPending) =
  false.
Proof.
  assert (H0 : 0 < length (pending MoreExamples.twoPending)) by (vm_compute; lia).
  assert (H2 : 2 <= length (pending MoreExamples.twoPending)) by (vm_compute; lia).
  split; [exact H0|]. split; [exact H2|].
  apply (indicator_off_while_pending 0 "10:01 AM" Examples.noFlights
           MoreExamples.twoPending H0 H2).
Defined.

(** Two requests are under way, the chat is cleared and the first request
    settles. *)
Lemma clear_does_not_cancel_witness :
  pending MoreExamples.twoPending !! 0 = Some "hello" /\
  messages (step (ClearChat true) MoreExamples.twoPending) = [].
Proof.
  split; [reflexivity|].
  apply (clear_does_not_cancel 0 "10:01 AM" "hello" Examples.noFlights
           MoreExamples.twoPending eq_refl).
Defined.

(** A booking is asked for and the search found a flight. *)
Lemma keyword_shadowing_witness :
  classify "I want to make a booking"
    (Some (mkSearchData (Some [MoreExamples.emirates]))) = Normal FlightSearch.
Proof.
  apply (proj1 (keyword_shadowing "I want to make a booking"
                  (Some (mkSearchData (Some [MoreExamples.emirates]))))).
  - reflexivity.
  - exists "i want to make a ", "". reflexivity.
Defined.

(** "Find flights to Dubai", and one flight found. *)
Lemma flight_search_reply_witness :
  truthy (trim "Find flights to Dubai") = true /\
  Occurs "flight" (toLowerCase (trim "Find flights to Dubai")) /\
  Occurs "Emirates" (flightText 1 MoreExamples.emirates).
Proof.
  assert (H : Occurs "flight" (toLowerCase (trim "Find flights to Dubai"))).
  { exists "find ", "s to dubai". reflexivity. }
  split; [reflexivity|]. split; [exact H|].
  apply (flight_search_reply "10:00 AM" "10:01 AM" "Find flights to Dubai"
           MoreExamples.emirates [] Examples.chat eq_refl (or_introl H)).
Defined.

(** A greeting and its reply, then the page is reloaded. *)
Lemma reload_keeps_the_log_only_witness :
  construct ∅ = (Examples.chat, Normal tt) /\
  fst (construct
         (localStorage
            (run [SendMessage "10:00 AM" "hello";
                  FetchSettles 0 "10:01 AM" Examples.noFlights] Examples.chat))) =
  mkState
    (messages
       (run [SendMessage "10:00 AM" "hello";
             FetchSettles 0 "10:01 AM" Examples.noFlights] Examples.chat))
    false
    (localStorage
       (run [SendMessage "10:00 AM" "hello";
             FetchSettles 0 "10:01 AM" Examples.noFlights] Examples.chat))
    [].
Proof.
  assert (H : construct ∅ = (Examples.chat, Normal tt)) by reflexivity.
  split; [exact H|].
  rewrite (reload_keeps_the_log_only ∅ Examples.chat
             [SendMessage "10:00 AM" "hello";
              FetchSettles 0 "10:01 AM" Examples.noFlights] H).
  reflexivity.
Defined.

End ChatMore.

(** ** The chat interface: what the container shows *)

Module ChatViewProps.
Import Js JsString ChatInterface ChatProps.

Ltac view_run :=
  cbv [ChatView.step ChatView.sendMessage_call ChatView.sendMessage_resume
       ChatView.clearChat ChatView.render ChatView.onChat
       ChatView.chat ChatView.rendered
       bind ret throw get modify tryCatch tryCatchFinally lift exec completion fst snd
       awaitFetch awaitJson negb].

Lemma view_step_send (now input : string) (s : ChatView.State) :
  truthy (trim input) = true ->
  ChatView.step (SendMessage now input) s =
  ChatView.mkState (step (SendMessage now input) (ChatView.chat s))
    (Some (map MessageBubble
             (messages (ChatView.chat s) ++ [mkMessage (trim input) user now]) ++
           [TypingBubble])).
Proof.
  intros H. rewrite (step_send _ _ _ H). destruct s as [[ms ld ls pd] rd].
  cbn [ChatView.step]. unfold ChatView.sendMessage_call. rewrite H. cbn [negb].
  view_run. cbn.
  unfold renderMessages. cbn [messages isLoading].
  destruct (ms ++ [mkMessage (trim input) user now]) eqn:E; [|reflexivity].
  destruct ms; discriminate.
Qed.

Lemma view_step_settle (i : nat) (now message : string) (o : FetchOutcome)
  (s : ChatView.State) :
  pending (ChatView.chat s) !! i = Some message ->
  ChatView.step (FetchSettles i now o) s =
  ChatView.mkState (step (FetchSettles i now o) (ChatView.chat s))
    (Some (map MessageBubble
             (messages (ChatView.chat s) ++
              [mkMessage (Schedule.replyContent message o) ai now]))).
Proof.
  intros H. rewrite (step_settle _ _ _ _ _ H). destruct s as [[ms ld ls pd] rd].
  cbn [ChatView.chat pending] in H. cbn [ChatView.step ChatView.chat pending]. rewrite H.
  unfold Schedule.replyContent.
  destruct o as [e|[] [e|data]]; try (view_run; cbn; unfold renderMessages;
    cbn [messages isLoading]; rewrite app_nil_r;
    destruct (ms ++ _) eqn:E; [destruct ms; discriminate|reflexivity]).
  view_run. cbn. destruct (generateAIResponse message data);
    cbn; unfold renderMessages; cbn [messages isLoading]; rewrite app_nil_r;
    destruct (ms ++ _) eqn:E; try reflexivity; destruct ms; discriminate.
Qed.

(** The calls of [render] do not reach the state: without the container,
    the methods are those of [ChatInterface]. *)
Lemma view_step_chat (ev : Event) (s : ChatView.State) :
  ChatView.chat (ChatView.step ev s) = step ev (ChatView.chat s).
Proof.
  destruct ev as [now input|i now o|[]|ms].
  - destruct (truthy (trim input)) eqn:E.
    + rewrite (view_step_send _ _ _ E). reflexivity.
    + cbn [ChatView.step step]. unfold ChatView.sendMessage_call, sendMessage_call.
      rewrite E. reflexivity.
  - destruct (pending (ChatView.chat s) !! i) as [message|] eqn:E.
    + rewrite (view_step_settle _ _ _ _ _ E). reflexivity.
    + cbn [ChatView.step step]. rewrite E. reflexivity.
  - reflexivity.
  - reflexivity.
  - reflexivity.
Qed.

(** X17.  Once rendered, the container follows the conversation:
    [addMessage] itself does not render, but every method that changes
    the log or the loading flag renders before it returns or waits, so
    a container that shows the conversation as it is still does so after
    any method. *)
Theorem container_is_current (ev : Event) (s : ChatView.State) :
  ChatView.Current s -> ChatView.Current (ChatView.step ev s).
Proof.
  unfold ChatView.Current. intros HC.
  destruct ev as [now input|i now o|[]|ms]; try exact HC; try reflexivity.
  - destruct (truthy (trim input)) eqn:E.
    + rewrite (view_step_send _ _ _ E). cbn [ChatView.chat ChatView.rendered].
      rewrite (step_send _ _ _ E). unfold renderMessages. cbn [messages isLoading].
      destruct (messages (ChatView.chat s) ++ _) eqn:E'; [|reflexivity].
      destruct (messages (ChatView.chat s)); discriminate.
    + cbn [ChatView.step]. unfold ChatView.sendMessage_call. rewrite E. exact HC.
  - destruct (pending (ChatView.chat s) !! i) as [message|] eqn:E.
    + rewrite (view_step_settle _ _ _ _ _ E). cbn [ChatView.chat ChatView.rendered].
      rewrite (step_settle _ _ _ _ _ E). unfold renderMessages. cbn [messages isLoading].
      rewrite app_nil_r.
      destruct (messages (ChatView.chat s) ++ _) eqn:E'; [|reflexivity].
      destruct (messages (ChatView.chat s)); discriminate.
    + cbn [ChatView.step]. rewrite E. exact HC.
Qed.

(** *** Examples *)

(** A greeting is sent in the cleared chat. *)
Lemma container_is_current_witness :
  ChatView.Current MoreExamples.view /\
  ChatView.Current (ChatView.step (SendMessage "10:00 AM" "hello") MoreExamples.view).
Proof.
  assert (H : ChatView.Current MoreExamples.view) by reflexivity.
  split; [exact H|].
  apply (container_is_current (SendMessage "10:00 AM" "hello") MoreExamples.view H).
Defined.

End ChatViewProps.
